(** * RT4K-CEC: the CEC responder task and its log channel

    A shallow embedding of [src/cec-task.c] (the responder state machine,
    the outbound frame constructors and logical-address allocation) and of
    [src/cec-log.c] (line submission and the protocol-aware frame logger),
    followed by the properties of the specification that concern them.

    Octets and the wider unsigned integers of the C code are values of [Z];
    every store into a narrower unsigned type is written out as a mask
    ([u8], [u16]).  The file-scope variables of [cec-task.c] and the effects
    on the outside world (frames handed to the line driver, blinker and HID
    queue calls) are threaded through a small state monad. *)

From Stdlib Require Import ZArith NArith List Bool Lia String Ascii.
From Stdlib Require Import DecimalString HexadecimalString.
Import ListNotations.

#[local] Open Scope Z_scope.

(** ** Fixed-width unsigned integers *)

Definition u8 (x : Z) : Z := Z.land x 255.
Definition u16 (x : Z) : Z := Z.land x 65535.
Definition Z_of_bool (b : bool) : Z := if b then 1 else 0.

(** [pld[i]] on a C array held as a list. *)
Definition at_ (pld : list Z) (i : nat) : Z := nth i pld 0.

(** ** Protocol constants *)

Module CecId.

(** Modelled from the spec: [cec-id.h] is not among the sources.  The opcode
    values are those of the CEC 1.3a wire encoding that §6 fixes, and agree
    with every octet shown in the scenarios of §8. *)
Definition CEC_ID_FEATURE_ABORT : Z := 0x00.
Definition CEC_ID_IMAGE_VIEW_ON : Z := 0x04.
Definition CEC_ID_TEXT_VIEW_ON : Z := 0x0D.
Definition CEC_ID_STANDBY : Z := 0x36.
Definition CEC_ID_USER_CONTROL_PRESSED : Z := 0x44.
Definition CEC_ID_USER_CONTROL_RELEASED : Z := 0x45.
Definition CEC_ID_GIVE_OSD_NAME : Z := 0x46.
Definition CEC_ID_SET_OSD_NAME : Z := 0x47.
Definition CEC_ID_SYSTEM_AUDIO_MODE_REQUEST : Z := 0x70.
Definition CEC_ID_GIVE_AUDIO_STATUS : Z := 0x71.
Definition CEC_ID_SET_SYSTEM_AUDIO_MODE : Z := 0x72.
Definition CEC_ID_REPORT_AUDIO_STATUS : Z := 0x7A.
Definition CEC_ID_GIVE_SYSTEM_AUDIO_MODE_STATUS : Z := 0x7D.
Definition CEC_ID_SYSTEM_AUDIO_MODE_STATUS : Z := 0x7E.
Definition CEC_ID_ROUTING_CHANGE : Z := 0x80.
Definition CEC_ID_ACTIVE_SOURCE : Z := 0x82.
Definition CEC_ID_GIVE_PHYSICAL_ADDRESS : Z := 0x83.
Definition CEC_ID_REPORT_PHYSICAL_ADDRESS : Z := 0x84.
Definition CEC_ID_REQUEST_ACTIVE_SOURCE : Z := 0x85.
Definition CEC_ID_SET_STREAM_PATH : Z := 0x86.
Definition CEC_ID_DEVICE_VENDOR_ID : Z := 0x87.
Definition CEC_ID_GIVE_DEVICE_VENDOR_ID : Z := 0x8C.
Definition CEC_ID_MENU_REQUEST : Z := 0x8D.
Definition CEC_ID_MENU_STATUS : Z := 0x8E.
Definition CEC_ID_GIVE_DEVICE_POWER_STATUS : Z := 0x8F.
Definition CEC_ID_REPORT_POWER_STATUS : Z := 0x90.
Definition CEC_ID_GET_MENU_LANGUAGE : Z := 0x91.
Definition CEC_ID_INACTIVE_SOURCE : Z := 0x9D.
Definition CEC_ID_CEC_VERSION : Z := 0x9E.
Definition CEC_ID_GET_CEC_VERSION : Z := 0x9F.
Definition CEC_ID_VENDOR_COMMAND_WITH_ID : Z := 0xA0.
Definition CEC_ID_REQUEST_ARC_INITIATION : Z := 0xC3.
Definition CEC_ID_ABORT : Z := 0xFF.

(** Modelled from the spec: [cec_abort_t] of [cec-id.h], in the order of the
    six-entry reason table of §4.3; §8 scenario 4 shows [UNRECOGNIZED] as
    [0x00]. *)
Definition CEC_ABORT_UNRECOGNIZED : Z := 0.
Definition CEC_ABORT_INCORRECT_MODE : Z := 1.
Definition CEC_ABORT_NO_SOURCE : Z := 2.
Definition CEC_ABORT_INVALID : Z := 3.
Definition CEC_ABORT_REFUSED : Z := 4.
Definition CEC_ABORT_UNDETERMINED : Z := 5.

(** Modelled from the spec: [cec_menu_t] of [cec-id.h]; the dispatch table of
    §4.1 maps the operand as 0 to activate, 1 to deactivate, 2 to query. *)
Definition CEC_MENU_ACTIVATE : Z := 0.
Definition CEC_MENU_DEACTIVATE : Z := 1.
Definition CEC_MENU_QUERY : Z := 2.

End CecId.
Import CecId.

(** Modelled from the spec: [HID_KEY_NONE] of the HID class header, the
    release sentinel [0x00] of §6. *)
Definition HID_KEY_NONE : Z := 0x00.

(** ** Configuration *)

(** Modelled from the spec: the device types of [cec-config.h] (§3), numbered
    in the order of the rows of the allocation table. *)
Inductive cec_device_type : Type :=
| TV | RecordingDevice | Reserved | Tuner | PlaybackDevice | AudioSystem.

Definition device_type_code (t : cec_device_type) : Z :=
  match t with
  | TV => 0 | RecordingDevice => 1 | Reserved => 2
  | Tuner => 3 | PlaybackDevice => 4 | AudioSystem => 5
  end.

(** One keymap slot: [name] is a C string pointer ([None] is [NULL]). *)
Record command_t : Type := mk_command {
  name : option string;
  key : Z
}.

(** Modelled from the spec: [cec_config_t] of [cec-config.h], the
    configuration snapshot of §3. *)
Record cec_config_t : Type := mk_config {
  edid_delay_ms : Z;
  physical_address : Z;
  logical_address : Z;
  device_type : cec_device_type;
  keymap : Z -> command_t
}.

(** ** The world of the responder task *)

Inductive blink_call : Type :=
| Blink_set_blink_BLUE_2HZ
| Blink_set_blink_GREEN_2HZ
| Blink_set_GREEN_ON
| Blink_set_OFF.

(** What lies outside the task: whether the k-th frame handed to
    [cec_frame_send] is acknowledged, and what the k-th EDID read returns. *)
Record bus : Type := mk_bus {
  acks : nat -> bool;
  ddc : nat -> Z
}.

(** The file-scope variables of [cec-task.c], the one local of [cec_task]
    that lives across loop iterations ([menu_state]), and the record of the
    calls made to the external collaborators.  [wire] lists the frames handed
    to [cec_frame_send], oldest first, each with the value the file-scope
    [laddr] had at that moment. *)
Record world : Type := mk_world {
  config : cec_config_t;
  laddr : Z;
  paddr : Z;
  active_addr : Z;
  audio_status : bool;
  menu_state : bool;
  wire : list (Z * list Z);
  ddc_reads : nat;
  blinks : list blink_call;
  hid_queue : list Z
}.

(** The frames of [wire], without the annotation. *)
Definition frames (w : world) : list (list Z) := map snd (wire w).

(** The world with another record of sent frames. *)
Definition with_wire (w : world) (x : list (Z * list Z)) : world :=
  {| config := config w; laddr := laddr w; paddr := paddr w;
     active_addr := active_addr w; audio_status := audio_status w;
     menu_state := menu_state w; wire := x;
     ddc_reads := ddc_reads w; blinks := blinks w;
     hid_queue := hid_queue w |}.

(** The static initialisers of [cec-task.c] and of [cec_task], with the
    configuration that [nvs_load_config] delivers. *)
Definition initial_world (c : cec_config_t) : world :=
  {| config := c; laddr := 0x0f; paddr := 0x0000; active_addr := 0x0000;
     audio_status := false; menu_state := false;
     wire := []; ddc_reads := O; blinks := []; hid_queue := [] |}.

(** ** A state monad over the world *)

Definition M (A : Type) : Type := world -> A * world.

Definition ret {A : Type} (a : A) : M A := fun w => (a, w).

Definition bind {A B : Type} (m : M A) (k : A -> M B) : M B :=
  fun w => let (a, w') := m w in k a w'.

Declare Scope cec_scope.
Delimit Scope cec_scope with cec.
Notation "x <- m ;; k" := (bind m (fun x => k))
  (at level 61, m at next level, right associativity) : cec_scope.
Notation "m ;; k" := (bind m (fun _ => k))
  (at level 61, right associativity) : cec_scope.
#[local] Open Scope cec_scope.

Definition get {A : Type} (f : world -> A) : M A := fun w => (f w, w).
Definition when (b : bool) (m : M unit) : M unit := if b then m else ret tt.

Definition set_laddr (v : Z) : M unit := fun w =>
  (tt, {| config := config w; laddr := v; paddr := paddr w;
          active_addr := active_addr w; audio_status := audio_status w;
          menu_state := menu_state w; wire := wire w;
          ddc_reads := ddc_reads w; blinks := blinks w;
          hid_queue := hid_queue w |}).

Definition set_paddr (v : Z) : M unit := fun w =>
  (tt, {| config := config w; laddr := laddr w; paddr := v;
          active_addr := active_addr w; audio_status := audio_status w;
          menu_state := menu_state w; wire := wire w;
          ddc_reads := ddc_reads w; blinks := blinks w;
          hid_queue := hid_queue w |}).

Definition set_active_addr (v : Z) : M unit := fun w =>
  (tt, {| config := config w; laddr := laddr w; paddr := paddr w;
          active_addr := v; audio_status := audio_status w;
          menu_state := menu_state w; wire := wire w;
          ddc_reads := ddc_reads w; blinks := blinks w;
          hid_queue := hid_queue w |}).

Definition set_audio_status (v : bool) : M unit := fun w =>
  (tt, {| config := config w; laddr := laddr w; paddr := paddr w;
          active_addr := active_addr w; audio_status := v;
          menu_state := menu_state w; wire := wire w;
          ddc_reads := ddc_reads w; blinks := blinks w;
          hid_queue := hid_queue w |}).

Definition set_menu_state (v : bool) : M unit := fun w =>
  (tt, {| config := config w; laddr := laddr w; paddr := paddr w;
          active_addr := active_addr w; audio_status := audio_status w;
          menu_state := v; wire := wire w;
          ddc_reads := ddc_reads w; blinks := blinks w;
          hid_queue := hid_queue w |}).

(** ** External collaborators *)

Section Responder.

Variable env : bus.

(** Modelled from the spec: [cec_frame_send] of the line driver (§6): the
    frame goes on the wire once, and the driver reports whether it was
    acknowledged. *)
Definition cec_frame_send (len : nat) (pld : list Z) : M bool := fun w =>
  (acks env (List.length (wire w)),
   {| config := config w; laddr := laddr w; paddr := paddr w;
      active_addr := active_addr w; audio_status := audio_status w;
      menu_state := menu_state w;
      wire := wire w ++ [(laddr w, firstn len pld)];
      ddc_reads := ddc_reads w; blinks := blinks w;
      hid_queue := hid_queue w |}).

(** Modelled from the spec: [ddc_get_physical_address] (§6). *)
Definition ddc_get_physical_address : M Z := fun w =>
  (u16 (ddc env (ddc_reads w)),
   {| config := config w; laddr := laddr w; paddr := paddr w;
      active_addr := active_addr w; audio_status := audio_status w;
      menu_state := menu_state w; wire := wire w;
      ddc_reads := S (ddc_reads w); blinks := blinks w;
      hid_queue := hid_queue w |}).

(** Modelled from the spec: the blinker (§6), fire and forget. *)
Definition blink (b : blink_call) : M unit := fun w =>
  (tt, {| config := config w; laddr := laddr w; paddr := paddr w;
          active_addr := active_addr w; audio_status := audio_status w;
          menu_state := menu_state w; wire := wire w;
          ddc_reads := ddc_reads w; blinks := blinks w ++ [b];
          hid_queue := hid_queue w |}).

(** Modelled from the spec: [xQueueSend] on the HID queue (§6); the model
    records the code offered to the queue. *)
Definition xQueueSend (k : Z) : M unit := fun w =>
  (tt, {| config := config w; laddr := laddr w; paddr := paddr w;
          active_addr := active_addr w; audio_status := audio_status w;
          menu_state := menu_state w; wire := wire w;
          ddc_reads := ddc_reads w; blinks := blinks w;
          hid_queue := hid_queue w ++ [k] |}).

(** Modelled from the spec: [cec_frame_recv] of the line driver (§6).  The
    driver stores the octets of the arriving frame, at most 16, at the start
    of the caller's buffer and returns their number. *)
Definition cec_frame_recv (pld : list Z) (data : list Z) : list Z * Z :=
  let d := firstn 16 data in
  (d ++ skipn (List.length d) pld, Z.of_nat (List.length d)).

(** ** Outbound frame construction ([cec-task.c], lines 56 to 152) *)

Definition HEADER0 (iaddr daddr : Z) : Z := Z.lor (Z.shiftl iaddr 4) daddr.

Definition cec_feature_abort (initiator destination msg reason : Z) : M unit :=
  let pld := [u8 (HEADER0 initiator destination); CEC_ID_FEATURE_ABORT;
              msg; u8 reason] in
  _ <- cec_frame_send 4 pld ;; ret tt.

Definition device_vendor_id (initiator destination vendor_id : Z) : M unit :=
  let pld := [u8 (HEADER0 initiator destination); CEC_ID_DEVICE_VENDOR_ID;
              Z.land (Z.shiftr vendor_id 16) 0x0ff;
              Z.land (Z.shiftr vendor_id 8) 0x0ff;
              Z.land (Z.shiftr vendor_id 0) 0x0ff] in
  _ <- cec_frame_send 5 pld ;; ret tt.

Definition report_power_status (initiator destination power_status : Z)
  : M unit :=
  let pld := [u8 (HEADER0 initiator destination); CEC_ID_REPORT_POWER_STATUS;
              power_status] in
  _ <- cec_frame_send 3 pld ;; ret tt.

Definition set_system_audio_mode (initiator destination system_audio_mode : Z)
  : M unit :=
  let pld := [u8 (HEADER0 initiator destination); CEC_ID_SET_SYSTEM_AUDIO_MODE;
              system_audio_mode] in
  _ <- cec_frame_send 3 pld ;; ret tt.

Definition report_audio_status (initiator destination status : Z) : M unit :=
  let pld := [u8 (HEADER0 initiator destination); CEC_ID_REPORT_AUDIO_STATUS;
              status] in
  _ <- cec_frame_send 3 pld ;; ret tt.

Definition system_audio_mode_status (initiator destination status : Z)
  : M unit :=
  let pld := [u8 (HEADER0 initiator destination);
              CEC_ID_SYSTEM_AUDIO_MODE_STATUS; status] in
  _ <- cec_frame_send 3 pld ;; ret tt.

Definition set_osd_name (initiator destination : Z) : M unit :=
  let pld := [u8 (HEADER0 initiator destination); CEC_ID_SET_OSD_NAME;
              0x50; 0x69; 0x63; 0x6f; 0x2d; 0x43; 0x45; 0x43] in
  _ <- cec_frame_send 10 pld ;; ret tt.

Definition report_physical_address
  (initiator destination physical_address dev_type : Z) : M unit :=
  let pld := [u8 (HEADER0 initiator destination);
              CEC_ID_REPORT_PHYSICAL_ADDRESS;
              Z.land (Z.shiftr physical_address 8) 0x0ff;
              Z.land (Z.shiftr physical_address 0) 0x0ff; dev_type] in
  _ <- cec_frame_send 5 pld ;; ret tt.

Definition report_cec_version (initiator destination : Z) : M unit :=
  let pld := [u8 (HEADER0 initiator destination); CEC_ID_CEC_VERSION; 0x04] in
  _ <- cec_frame_send 3 pld ;; ret tt.

Definition cec_ping (destination : Z) : M bool :=
  let pld := [u8 (HEADER0 destination destination)] in
  cec_frame_send 1 pld.

Definition image_view_on (initiator destination : Z) : M unit :=
  let pld := [u8 (HEADER0 initiator destination); CEC_ID_IMAGE_VIEW_ON] in
  _ <- cec_frame_send 2 pld ;; ret tt.

Definition active_source (initiator physical_address : Z) : M unit :=
  let pld := [u8 (HEADER0 initiator 0x0f); CEC_ID_ACTIVE_SOURCE;
              Z.land (Z.shiftr physical_address 8) 0x0ff;
              Z.land (Z.shiftr physical_address 0) 0x0ff] in
  _ <- cec_frame_send 4 pld ;; ret tt.

Definition menu_status (initiator destination : Z) (state_on : bool)
  : M unit :=
  let state := if state_on then u8 CEC_MENU_ACTIVATE
               else u8 CEC_MENU_DEACTIVATE in
  let pld := [u8 (HEADER0 initiator destination); CEC_ID_MENU_STATUS; state] in
  _ <- cec_frame_send (List.length pld) pld ;; ret tt.

(** ** Logical-address allocation ([cec-task.c], lines 30 to 171) *)

Definition NUM_LADDRESS : nat := 4.
Definition NUM_TYPES : nat := 6.

Definition laddress : list (list Z) :=
  [ [0x00; 0x00; 0x00; 0x00];   (* TV *)
    [0x01; 0x02; 0x09; 0x0f];   (* Recording Device *)
    [0x0f; 0x0f; 0x0f; 0x0f];   (* Reserved *)
    [0x03; 0x06; 0x07; 0x0f];   (* Tuner + 0x0a *)
    [0x04; 0x08; 0x0b; 0x0f];   (* Playback Device *)
    [0x05; 0x05; 0x05; 0x05] ]. (* Audio System *)

(** [laddress[t][i]] *)
Definition laddress_at (t : cec_device_type) (i : nat) : Z :=
  at_ (nth (Z.to_nat (device_type_code t)) laddress []) i.

(** The [for] loop of [allocate_logical_address]: [n] iterations remain,
    [i] is the loop index and [a] the last candidate assigned.  (The two
    [cec_log_submitf] calls only feed the log and are left out.) *)
Fixpoint allocate_loop (t : cec_device_type) (n i : nat) (a : Z) : M Z :=
  match n with
  | O => ret a
  | S n' =>
      let a := laddress_at t i in
      ack <- cec_ping a ;;
      if negb ack then ret a else allocate_loop t n' (S i) a
  end.

Definition allocate_logical_address (c : cec_config_t) : M Z :=
  if negb (logical_address c =? 0x00) && negb (logical_address c =? 0x0f)
  then ret (logical_address c)
  else allocate_loop (device_type c) NUM_LADDRESS O 0.

Definition get_physical_address (c : cec_config_t) : M Z :=
  if physical_address c =? 0x0000 then ddc_get_physical_address
  else ret (physical_address c).

(** ** The responder loop ([cec_task], lines 186 to 385) *)

(** The [switch (pld[1])] of one loop iteration.  [no_active] is the local
    counter of the iteration; its final value is returned. *)
Definition dispatch (pld : list Z) (initiator destination no_active : Z)
  : M Z :=
  let op := at_ pld 1 in
  if op =? CEC_ID_IMAGE_VIEW_ON then ret no_active
  else if op =? CEC_ID_TEXT_VIEW_ON then ret no_active
  else if op =? CEC_ID_STANDBY then
    l <- get laddr ;;
    when ((destination =? l) || (destination =? 0x0f))
         (set_active_addr 0x0000 ;; blink Blink_set_blink_BLUE_2HZ) ;;
    ret no_active
  else if op =? CEC_ID_SYSTEM_AUDIO_MODE_REQUEST then
    l <- get laddr ;;
    a <- get audio_status ;;
    when (destination =? l) (set_system_audio_mode l initiator (Z_of_bool a)) ;;
    ret no_active
  else if op =? CEC_ID_GIVE_AUDIO_STATUS then
    l <- get laddr ;;
    when (destination =? l) (report_audio_status l initiator 0x32) ;;
    ret no_active
  else if op =? CEC_ID_SET_SYSTEM_AUDIO_MODE then
    l <- get laddr ;;
    when ((destination =? l) || (destination =? 0x0f))
         (set_audio_status (at_ pld 2 =? 1)) ;;
    ret no_active
  else if op =? CEC_ID_GIVE_SYSTEM_AUDIO_MODE_STATUS then
    l <- get laddr ;;
    a <- get audio_status ;;
    when (destination =? l)
         (system_audio_mode_status l initiator (Z_of_bool a)) ;;
    ret no_active
  else if op =? CEC_ID_SYSTEM_AUDIO_MODE_STATUS then ret no_active
  else if op =? CEC_ID_ROUTING_CHANGE then
    set_active_addr (u16 (Z.lor (Z.shiftl (at_ pld 4) 8) (at_ pld 5))) ;;
    c <- get config ;;
    p <- get_physical_address c ;;
    set_paddr p ;;
    l <- allocate_logical_address c ;;
    set_laddr l ;;
    act <- get active_addr ;;
    if p =? act then
      image_view_on l 0x00 ;;
      active_source l p ;;
      ret 0
    else ret no_active
  else if op =? CEC_ID_ACTIVE_SOURCE then
    set_active_addr (u16 (Z.lor (Z.shiftl (at_ pld 2) 8) (at_ pld 3))) ;;
    ret 0
  else if op =? CEC_ID_REPORT_PHYSICAL_ADDRESS then
    if (initiator =? 0x00) && (destination =? 0x0f) then
      c <- get config ;;
      p <- get_physical_address c ;;
      set_paddr p ;;
      l <- allocate_logical_address c ;;
      set_laddr l ;;
      when (negb (p =? 0x0000))
           (report_physical_address l 0x0f p
              (device_type_code (device_type c))) ;;
      ret no_active
    else ret no_active
  else if op =? CEC_ID_REQUEST_ACTIVE_SOURCE then
    let no_active := u8 (no_active + 1) in
    l <- get laddr ;;
    p <- get paddr ;;
    act <- get active_addr ;;
    if (p =? act) || (2 <? no_active) then
      image_view_on l 0x00 ;;
      active_source l p ;;
      ret 0
    else ret no_active
  else if op =? CEC_ID_SET_STREAM_PATH then
    l <- get laddr ;;
    p <- get paddr ;;
    if p =? Z.lor (Z.shiftl (at_ pld 2) 8) (at_ pld 3) then
      set_active_addr p ;;
      image_view_on l 0x00 ;;
      active_source l p ;;
      set_menu_state true ;;
      m <- get menu_state ;;
      menu_status l 0x00 m ;;
      blink Blink_set_blink_GREEN_2HZ ;;
      ret 0
    else ret no_active
  else if op =? CEC_ID_DEVICE_VENDOR_ID then
    l <- get laddr ;;
    when ((initiator =? 0x00) && (destination =? 0x0f))
         (device_vendor_id l 0x0f 0x0010FA) ;;
    ret no_active
  else if op =? CEC_ID_GIVE_DEVICE_VENDOR_ID then
    l <- get laddr ;;
    when (destination =? l) (device_vendor_id l 0x0f 0x0010FA) ;;
    ret no_active
  else if op =? CEC_ID_MENU_STATUS then ret no_active
  else if op =? CEC_ID_MENU_REQUEST then
    l <- get laddr ;;
    when (destination =? l)
         (let request := at_ pld 2 in
          (if request =? CEC_MENU_ACTIVATE then set_menu_state true
           else if request =? CEC_MENU_DEACTIVATE then set_menu_state false
           else if request =? CEC_MENU_QUERY then ret tt
           else ret tt) ;;
          m <- get menu_state ;;
          menu_status l initiator m) ;;
    ret no_active
  else if op =? CEC_ID_GIVE_DEVICE_POWER_STATUS then
    l <- get laddr ;;
    p <- get paddr ;;
    act <- get active_addr ;;
    when (destination =? l)
         (report_power_status l initiator (Z_of_bool (negb (act =? p)))) ;;
    ret no_active
  else if op =? CEC_ID_REPORT_POWER_STATUS then ret no_active
  else if op =? CEC_ID_GET_MENU_LANGUAGE then ret no_active
  else if op =? CEC_ID_INACTIVE_SOURCE then ret no_active
  else if op =? CEC_ID_CEC_VERSION then ret no_active
  else if op =? CEC_ID_GET_CEC_VERSION then
    l <- get laddr ;;
    when (destination =? l) (report_cec_version l initiator) ;;
    ret no_active
  else if op =? CEC_ID_GIVE_OSD_NAME then
    l <- get laddr ;;
    when (destination =? l) (set_osd_name l initiator) ;;
    ret no_active
  else if op =? CEC_ID_SET_OSD_NAME then ret no_active
  else if op =? CEC_ID_GIVE_PHYSICAL_ADDRESS then
    l <- get laddr ;;
    p <- get paddr ;;
    c <- get config ;;
    when ((destination =? l) && negb (p =? 0x0000))
         (report_physical_address l 0x0f p
            (device_type_code (device_type c))) ;;
    ret no_active
  else if op =? CEC_ID_USER_CONTROL_PRESSED then
    l <- get laddr ;;
    c <- get config ;;
    when (destination =? l)
         (blink Blink_set_GREEN_ON ;;
          let command := keymap c (at_ pld 2) in
          match name command with
          | Some _ => xQueueSend (key command)
          | None => ret tt
          end) ;;
    ret no_active
  else if op =? CEC_ID_USER_CONTROL_RELEASED then
    l <- get laddr ;;
    when (destination =? l)
         (blink Blink_set_OFF ;; xQueueSend HID_KEY_NONE) ;;
    ret no_active
  else if op =? CEC_ID_ABORT then
    l <- get laddr ;;
    when (destination =? l)
         (cec_feature_abort l initiator (at_ pld 1) CEC_ABORT_REFUSED) ;;
    ret no_active
  else if op =? CEC_ID_FEATURE_ABORT then ret no_active
  else if op =? CEC_ID_VENDOR_COMMAND_WITH_ID then ret no_active
  else
    l <- get laddr ;;
    when (destination =? l)
         (cec_feature_abort l initiator (at_ pld 1) CEC_ABORT_UNRECOGNIZED) ;;
    ret no_active.

(** The receive buffer as the loop body declares it: [uint8_t pld[16] =
    {0x0}]. *)
Definition fresh_pld : list Z := repeat 0 16.

(** One iteration of [while (true)], on the frame [data] that the line
    driver delivers next.  [pld], [pldcnt], [initiator], [destination] and
    [no_active] are the locals of the loop body. *)
Definition cec_task_iteration (data : list Z) : M unit :=
  let pld := fresh_pld in
  let no_active := 0 in
  let (pld, pldcnt) := cec_frame_recv pld data in
  let initiator := Z.shiftr (Z.land (at_ pld 0) 0xf0) 4 in
  let destination := Z.land (at_ pld 0) 0x0f in
  if 1 <? pldcnt then
    _ <- dispatch pld initiator destination no_active ;; ret tt
  else ret tt.

(** The loop over the frames that arrive, in order. *)
Fixpoint cec_task_loop (inbound : list (list Z)) : M unit :=
  match inbound with
  | [] => ret tt
  | data :: rest => cec_task_iteration data ;; cec_task_loop rest
  end.

(** The prologue of [cec_task] after the configuration is loaded (the EDID
    settle delay and the driver bring-up change nothing here). *)
Definition cec_task_startup : M unit :=
  c <- get config ;;
  p <- get_physical_address c ;;
  set_paddr p ;;
  l <- allocate_logical_address c ;;
  set_laddr l.

Definition cec_task (inbound : list (list Z)) : M unit :=
  cec_task_startup ;; cec_task_loop inbound.

End Responder.

(** The world after running [m], and the value [m] returns. *)
Definition exec {A : Type} (m : M A) (w : world) : world := snd (m w).
Definition eval {A : Type} (m : M A) (w : world) : A := fst (m w).

(** The [case] labels of the [switch] in [cec_task]: the opcodes that do not
    fall to [default]. *)
Definition dispatch_set : list Z :=
  [ CEC_ID_IMAGE_VIEW_ON; CEC_ID_TEXT_VIEW_ON; CEC_ID_STANDBY;
    CEC_ID_SYSTEM_AUDIO_MODE_REQUEST; CEC_ID_GIVE_AUDIO_STATUS;
    CEC_ID_SET_SYSTEM_AUDIO_MODE; CEC_ID_GIVE_SYSTEM_AUDIO_MODE_STATUS;
    CEC_ID_SYSTEM_AUDIO_MODE_STATUS; CEC_ID_ROUTING_CHANGE;
    CEC_ID_ACTIVE_SOURCE; CEC_ID_REPORT_PHYSICAL_ADDRESS;
    CEC_ID_REQUEST_ACTIVE_SOURCE; CEC_ID_SET_STREAM_PATH;
    CEC_ID_DEVICE_VENDOR_ID; CEC_ID_GIVE_DEVICE_VENDOR_ID;
    CEC_ID_MENU_STATUS; CEC_ID_MENU_REQUEST;
    CEC_ID_GIVE_DEVICE_POWER_STATUS; CEC_ID_REPORT_POWER_STATUS;
    CEC_ID_GET_MENU_LANGUAGE; CEC_ID_INACTIVE_SOURCE; CEC_ID_CEC_VERSION;
    CEC_ID_GET_CEC_VERSION; CEC_ID_GIVE_OSD_NAME; CEC_ID_SET_OSD_NAME;
    CEC_ID_GIVE_PHYSICAL_ADDRESS; CEC_ID_USER_CONTROL_PRESSED;
    CEC_ID_USER_CONTROL_RELEASED; CEC_ID_ABORT; CEC_ID_FEATURE_ABORT;
    CEC_ID_VENDOR_COMMAND_WITH_ID ].

Definition recognized (op : Z) : bool := existsb (Z.eqb op) dispatch_set.

(** The record of a PING of candidate [a], sent while [laddr] was [l]. *)
Definition ping_of (l a : Z) : Z * list Z := (l, [u8 (HEADER0 a a)]).

(** The records of the PINGs of the first [k] candidates of a row, from
    index [i] on. *)
Definition pings_of (l : Z) (t : cec_device_type) (i k : nat)
  : list (Z * list Z) :=
  map (fun j => ping_of l (laddress_at t j)) (seq i k).

(** A record of [wire] is well addressed, for a device of type [t], when it
    is a PING of a candidate of the row of [t], which carries the candidate
    in both nibbles, or a longer frame whose octet 0 has in its high nibble
    the [laddr] it was sent under. *)
Definition well_addressed (t : cec_device_type) (e : Z * list Z) : Prop :=
  (exists i, (i < NUM_LADDRESS)%nat
             /\ snd e = [u8 (HEADER0 (laddress_at t i) (laddress_at t i))])
  \/ ((1 < List.length (snd e))%nat /\ Z.shiftr (at_ (snd e) 0) 4 = fst e).

(** The invariant of the responder under the configuration [c]: the
    configuration stays, the logical addresses, configured and current, have
    four bits, and the record of sent frames is well addressed. *)
Definition responder_inv (c : cec_config_t) (w : world) : Prop :=
  config w = c
  /\ 0 <= laddr w < 16
  /\ 0 <= logical_address c < 16
  /\ Forall (well_addressed (device_type c)) (wire w).

(** A handler keeps the invariant when its result has it. *)
Definition keeps_inv {A : Type} (c : cec_config_t) (r : A * world) : Prop :=
  responder_inv c (snd r).

(** The header fields of an inbound frame, as the loop body extracts them. *)
Definition initiator_of (data : list Z) : Z :=
  Z.shiftr (Z.land (at_ data 0) 0xf0) 4.
Definition destination_of (data : list Z) : Z := Z.land (at_ data 0) 0x0f.

(** The receive buffer after [cec_frame_recv] stored [data] in it. *)
Definition received (data : list Z) : list Z :=
  fst (cec_frame_recv fresh_pld data).

(** ** The log channel ([cec-log.c]) *)

Module CecLog.

#[local] Open Scope string_scope.

Definition LOG_LINE_LENGTH : nat := 64.
Definition LOG_QUEUE_LENGTH : nat := 16.
Definition LOG_MB_SIZE : nat := LOG_LINE_LENGTH * LOG_QUEUE_LENGTH.

(** The flag [enabled] and the message buffer [log_mb].  The buffer is
    represented by the messages handed to [xMessageBufferSend], oldest first;
    each is the NUL-terminated content of the sender's line buffer. *)
Record log_state : Type := mk_log {
  enabled : bool;
  log_mb : list string
}.

Definition cec_log_enabled (st : log_state) : bool := enabled st.
Definition cec_log_enable (st : log_state) : log_state :=
  {| enabled := true; log_mb := log_mb st |}.
Definition cec_log_disable (st : log_state) : log_state :=
  {| enabled := false; log_mb := log_mb st |}.

Definition xMessageBufferSend (line : string) (st : log_state) : log_state :=
  {| enabled := enabled st; log_mb := log_mb st ++ [line] |}.

(** [vsnprintf(buffer, size, fmt, ap)], on the full expansion of the format:
    at most [size - 1] characters are stored before the terminating NUL, and
    the length of the full expansion is returned. *)
Definition vsnprintf (size : nat) (expansion : string) : string * Z :=
  (substring 0 (size - 1) expansion, Z.of_nat (String.length expansion)).

(** [cec_log_vsubmitf], on the full expansion of [fmt] with [ap]. *)
Definition cec_log_vsubmitf (expansion : string) (st : log_state)
  : log_state :=
  if enabled st then
    let (buffer, bytes) := vsnprintf LOG_LINE_LENGTH expansion in
    if (bytes <? Z.of_nat LOG_LINE_LENGTH)%Z
    then xMessageBufferSend buffer st
    else st
  else st.

Definition cec_log_submitf (expansion : string) (st : log_state)
  : log_state := cec_log_vsubmitf expansion st.

(** *** printf conversions *)

Fixpoint fill (c : ascii) (n : nat) (s : string) : string :=
  match n with
  | O => s
  | S n' => String c (fill c n' s)
  end.

(** A minimum field width, right-justified. *)
Definition pad_left (c : ascii) (width : nat) (s : string) : string :=
  fill c (width - String.length s) s.

(** [%x] *)
Definition fmt_x (v : Z) : string :=
  HexadecimalString.NilZero.string_of_uint (N.to_hex_uint (Z.to_N v)).
(** [%02x] *)
Definition fmt_02x (v : Z) : string := pad_left "0"%char 2 (fmt_x v).
(** [%10llu] *)
Definition fmt_10llu (v : Z) : string :=
  pad_left " "%char 10
    (DecimalString.NilZero.string_of_uint (N.to_uint (Z.to_N v))).

(** *** Faults *)

(** What the C code does on a pointer that is [NULL] or an index outside its
    array is not defined; the model stops there and names the fault. *)
Inductive fault : Type := NullDereference | OutOfBounds.

Inductive outcome (A : Type) : Type :=
| Done (a : A)
| Trap (f : fault).
Arguments Done {A} a.
Arguments Trap {A} f.

Definition obind {A B : Type} (m : outcome A) (k : A -> outcome B)
  : outcome B :=
  match m with
  | Done a => k a
  | Trap f => Trap f
  end.

Declare Scope log_scope.
Notation "x <- m ;; k" := (obind m (fun x => k))
  (at level 61, m at next level, right associativity) : log_scope.
#[local] Open Scope log_scope.

(** A C string pointer is [None] when [NULL]. *)
Definition cstring : Type := option string.

(** [strlen] reads through its argument. *)
Definition strlen (s : cstring) : outcome nat :=
  match s with
  | Some t => Done (String.length t)
  | None => Trap NullDereference
  end.

(** The argument of a [%s] conversion is read through as well. *)
Definition fmt_s (s : cstring) : outcome string :=
  match s with
  | Some t => Done t
  | None => Trap NullDereference
  end.

(** *** Mnemonic tables *)

(** The designated initialisers of [cec_message[]]; every slot of the
    256-entry array that is not listed is a null pointer. *)
Definition cec_message_entries : list (Z * string) :=
  [ (CEC_ID_FEATURE_ABORT, "Feature Abort");
    (CEC_ID_IMAGE_VIEW_ON, "Image View On");
    (CEC_ID_TEXT_VIEW_ON, "Text View On");
    (CEC_ID_STANDBY, "Standby");
    (CEC_ID_USER_CONTROL_PRESSED, "User Control Pressed");
    (CEC_ID_USER_CONTROL_RELEASED, "User Control Released");
    (CEC_ID_GIVE_OSD_NAME, "Give OSD Name");
    (CEC_ID_SET_OSD_NAME, "Set OSD Name");
    (CEC_ID_SYSTEM_AUDIO_MODE_REQUEST, "System Audio Mode Request");
    (CEC_ID_GIVE_AUDIO_STATUS, "Give Audio Status");
    (CEC_ID_SET_SYSTEM_AUDIO_MODE, "Set System Audio Mode");
    (CEC_ID_GIVE_SYSTEM_AUDIO_MODE_STATUS, "Give System Audio Mode");
    (CEC_ID_SYSTEM_AUDIO_MODE_STATUS, "System Audio Mode Status");
    (CEC_ID_REPORT_AUDIO_STATUS, "Report Audio Status");
    (CEC_ID_ROUTING_CHANGE, "Routing Change");
    (CEC_ID_ACTIVE_SOURCE, "Active Source");
    (CEC_ID_GIVE_PHYSICAL_ADDRESS, "Give Physical Address");
    (CEC_ID_REPORT_PHYSICAL_ADDRESS, "Report Physical Address");
    (CEC_ID_REQUEST_ACTIVE_SOURCE, "Request Active Source");
    (CEC_ID_SET_STREAM_PATH, "Set Stream Path");
    (CEC_ID_DEVICE_VENDOR_ID, "Device Vendor ID");
    (CEC_ID_GIVE_DEVICE_VENDOR_ID, "Give Device Vendor ID");
    (CEC_ID_MENU_STATUS, "Menu Status");
    (CEC_ID_MENU_REQUEST, "Menu Request");
    (CEC_ID_GIVE_DEVICE_POWER_STATUS, "Give Device Power Status");
    (CEC_ID_REPORT_POWER_STATUS, "Report Power Status");
    (CEC_ID_GET_MENU_LANGUAGE, "Get Menu Language");
    (CEC_ID_INACTIVE_SOURCE, "Inactive Source");
    (CEC_ID_CEC_VERSION, "CEC Version");
    (CEC_ID_GET_CEC_VERSION, "Get CEC Version");
    (CEC_ID_VENDOR_COMMAND_WITH_ID, "Vendor Command With ID");
    (CEC_ID_REQUEST_ARC_INITIATION, "Request ARC Initiation");
    (CEC_ID_ABORT, "Abort") ].

Fixpoint designated (entries : list (Z * string)) (i : Z) : cstring :=
  match entries with
  | [] => None
  | (k, v) :: rest => if (i =? k)%Z then Some v else designated rest i
  end.

(** [cec_message[cmd]], for an octet [cmd]. *)
Definition cec_message (cmd : Z) : cstring :=
  designated cec_message_entries cmd.

Definition cec_feature_abort_reason_entries : list (Z * string) :=
  [ (CEC_ABORT_UNRECOGNIZED, "Unrecognized opcode");
    (CEC_ABORT_INCORRECT_MODE, "Not in correct mode to respond");
    (CEC_ABORT_NO_SOURCE, "Cannot provide source");
    (CEC_ABORT_INVALID, "Invalid operand");
    (CEC_ABORT_REFUSED, "Refused");
    (CEC_ABORT_UNDETERMINED, "Undetermined") ].

(** [cec_feature_abort_reason[r]]: the array has six slots. *)
Definition cec_feature_abort_reason (r : Z) : outcome cstring :=
  if ((0 <=? r) && (r <=? CEC_ABORT_UNDETERMINED))%Z
  then Done (designated cec_feature_abort_reason_entries r)
  else Trap OutOfBounds.

(** *** Frames as the logger sees them *)

(** Modelled from the spec: [cec_message_t] and [cec_frame_t] of
    [cec-frame.h], a payload of up to 16 octets with its length, and the
    acknowledgement flag the line driver reports (§3). *)
Record cec_message_t : Type := mk_message {
  data : list Z;
  len : Z
}.

Record cec_frame_t : Type := mk_frame {
  message : cec_message_t;
  ack : bool
}.

Section Logger.

(** [_LOG_BR], the line break of [cec-log.h]. *)
Variable LOG_BR : string.
(** [cec_user_control_name[]] of [cec-user.c], the sparse 256-entry table of
    key names. *)
Variable cec_user_control_name : Z -> cstring.

(** [log_printf]; [now] is what [util_uptime_ms] returns and [expansion] the
    full expansion of [fmt] with its arguments. *)
Definition log_printf (now initiator destination : Z) (send ack : bool)
  (expansion : string) (st : log_state) : log_state :=
  let arrow :=
    if send then (if ack then "->" else "~>")
    else (if ack then "<-" else "<~") in
  let prefix :=
    fst (vsnprintf 64
           ("[" ++ fmt_10llu now ++ "] "
            ++ fmt_02x (if send then initiator else destination)
            ++ " " ++ arrow ++ " "
            ++ fmt_02x (if send then destination else initiator))) in
  let buffer := fst (vsnprintf 64 expansion) in
  cec_log_submitf (prefix ++ ": " ++ buffer ++ LOG_BR) st.

(** The [for] loop of the [VENDOR_COMMAND_WITH_ID] case. *)
Fixpoint dump_payload (pld : list Z) (n i : nat) (st : log_state)
  : log_state :=
  match n with
  | O => st
  | S n' =>
      dump_payload pld n' (S i)
        (cec_log_submitf (" " ++ fmt_02x (at_ pld i) ++ LOG_BR) st)
  end.

Definition cec_log_frame (now : Z) (frame : cec_frame_t) (recv : bool)
  (st : log_state) : outcome log_state :=
  let msg := message frame in
  let initiator := Z.shiftr (Z.land (at_ (data msg) 0) 0xf0) 4 in
  let destination := Z.land (at_ (data msg) 0) 0x0f in
  let say := log_printf now initiator destination recv (ack frame) in
  if (1 <? len msg)%Z then
    let cmd := at_ (data msg) 1 in
    if (cmd =? CEC_ID_FEATURE_ABORT)%Z then
      m <- fmt_s (cec_message cmd) ;;
      r <- cec_feature_abort_reason (at_ (data msg) 3) ;;
      r <- fmt_s r ;;
      Done (say ("[" ++ m ++ "][" ++ fmt_x (at_ (data msg) 2) ++ "]["
                 ++ r ++ "]") st)
    else if (cmd =? CEC_ID_STANDBY)%Z then
      m <- fmt_s (cec_message cmd) ;;
      Done (say ("[" ++ m ++ "][" ++ "Display OFF" ++ "]") st)
    else if (cmd =? CEC_ID_ROUTING_CHANGE)%Z then
      m <- fmt_s (cec_message cmd) ;;
      Done (say ("[" ++ m ++ "][" ++ fmt_02x (at_ (data msg) 2)
                 ++ fmt_02x (at_ (data msg) 3) ++ " -> "
                 ++ fmt_02x (at_ (data msg) 4)
                 ++ fmt_02x (at_ (data msg) 5) ++ "]") st)
    else if (cmd =? CEC_ID_ACTIVE_SOURCE)%Z then
      m <- fmt_s (cec_message cmd) ;;
      Done (say ("[" ++ m ++ "][" ++ fmt_02x (at_ (data msg) 2)
                 ++ fmt_02x (at_ (data msg) 3) ++ " Display ON]") st)
    else if (cmd =? CEC_ID_REPORT_PHYSICAL_ADDRESS)%Z then
      m <- fmt_s (cec_message cmd) ;;
      Done (say ("[" ++ m ++ "] " ++ fmt_02x (at_ (data msg) 2)
                 ++ fmt_02x (at_ (data msg) 3)) st)
    else if (cmd =? CEC_ID_USER_CONTROL_PRESSED)%Z then
      let key := at_ (data msg) 2 in
      let name := cec_user_control_name key in
      m <- fmt_s (cec_message cmd) ;;
      match name with
      | Some n => Done (say ("[" ++ m ++ "][" ++ n ++ "]") st)
      | None =>
          Done (say ("[" ++ m ++ "] Unknown command: 0x" ++ fmt_02x key) st)
      end
    else if (cmd =? CEC_ID_VENDOR_COMMAND_WITH_ID)%Z then
      m <- fmt_s (cec_message cmd) ;;
      Done (dump_payload (data msg) (Z.to_nat (len msg)) O
              (say ("[" ++ m ++ "]") st))
    else if (cmd =? CEC_ID_REPORT_POWER_STATUS)%Z then
      let status :=
        let op := at_ (data msg) 2 in
        if (op =? 0x00)%Z then "On"
        else if (op =? 0x01)%Z then "Standby"
        else if (op =? 0x02)%Z then "In transition Standby to On"
        else if (op =? 0x03)%Z then "In transition On to Standby"
        else "unknown" in
      m <- fmt_s (cec_message cmd) ;;
      Done (say ("[" ++ m ++ "][" ++ status ++ "]") st)
    else if ((cmd =? CEC_ID_MENU_STATUS) || (cmd =? CEC_ID_MENU_REQUEST))%Z
    then
      m <- fmt_s (cec_message cmd) ;;
      Done (say ("[" ++ m ++ "][" ++ fmt_02x (at_ (data msg) 2) ++ "]") st)
    else
      let message := cec_message cmd in
      n <- strlen message ;;
      if Nat.ltb 0 n then
        m <- fmt_s (cec_message cmd) ;;
        Done (say ("[" ++ m ++ "]") st)
      else
        Done (say ("[" ++ fmt_x cmd ++ "] (undecoded)") st)
  else
    Done (say ("[" ++ "Polling Message" ++ "]") st).

End Logger.

End CecLog.


(** ** Sample configurations and worlds *)

Definition no_keys : Z -> command_t := fun _ => mk_command None 0.

(** A playback device configured as in the scenarios of §8: logical address
    4, physical address 0x3000. *)
Definition cfg_playback_4 : cec_config_t :=
  mk_config 0 0x3000 4 PlaybackDevice no_keys.

(** A playback device that allocates its logical address by probing. *)
Definition cfg_playback_auto : cec_config_t :=
  mk_config 0 0x3000 0 PlaybackDevice no_keys.

(** A TV that allocates its logical address by probing. *)
Definition cfg_tv_auto : cec_config_t := mk_config 0 0x1000 0 TV no_keys.

(** A bus on which nothing acknowledges, one on which everything does, and
    one where only the first frame is acknowledged. *)
Definition bus_silent : bus := mk_bus (fun _ => false) (fun _ => 0).
Definition bus_crowded : bus := mk_bus (fun _ => true) (fun _ => 0).
Definition bus_first_taken : bus := mk_bus (fun k => Nat.eqb k 0) (fun _ => 0).

(** The responder of the scenarios once started: [laddr = 4],
    [paddr = 0x3000]. *)
Definition w_scenario : world :=
  exec (cec_task_startup bus_silent) (initial_world cfg_playback_4).

(** The same responder after a SET_SYSTEM_AUDIO_MODE that switched System
    Audio Mode on, and after a SET_STREAM_PATH that selected it. *)
Definition w_audio_on : world :=
  exec (cec_task_iteration bus_silent [0x0F; 0x72; 0x01]) w_scenario.
Definition w_selected : world :=
  exec (cec_task_iteration bus_silent [0x0F; 0x86; 0x30; 0x00]) w_scenario.

(** A log channel that is switched on and holds nothing yet, and a line
    whose expansion is exactly 64 characters long. *)
Definition log_on : CecLog.log_state := CecLog.mk_log true [].
Definition line64 : string :=
  "0123456789abcdef0123456789abcdef0123456789abcdef0123456789abcdef".

(** A received frame that carries the opcode [0xAA], as the logger gets
    it. *)
Definition frame_0xAA : CecLog.cec_frame_t :=
  CecLog.mk_frame (CecLog.mk_message [0x04; 0xAA] 2) true.

(** A frame padded with zero octets to the size of the receive buffer. *)
Definition zero_padded (data : list Z) : list Z :=
  data ++ repeat 0 (16 - List.length data).

(** ** Footprints and the log consumer *)

(** A handler leaves the responder alone when the world comes back as it
    was. *)
Definition leaves_alone (w : world) (r : Z * world) : Prop := snd r = w.

(** The records added to [wire] between two worlds. *)
Definition sent_since (w w' : world) : list (Z * list Z) :=
  skipn (List.length (wire w)) (wire w').

(** A handler keeps the addresses when the configuration, [laddr], [paddr]
    and the count of EDID reads come back as they were and no single-octet
    frame was sent. *)
Definition keeps_addresses (w : world) (r : Z * world) : Prop :=
  config (snd r) = config w
  /\ laddr (snd r) = laddr w
  /\ paddr (snd r) = paddr w
  /\ ddc_reads (snd r) = ddc_reads w
  /\ Forall (fun e => (1 < List.length (snd e))%nat) (sent_since w (snd r)).

(** A handler keeps the HID queue and the blinker when both come back as
    they were. *)
Definition keeps_keys (w : world) (r : Z * world) : Prop :=
  hid_queue (snd r) = hid_queue w.

(** The low nibble of octet 0 of a reply: the initiator of the frame that
    triggered it, the TV ([0x0]) or broadcast ([0xF]); and a reply has
    between two and ten octets. *)
Definition reply_to (i : Z) (e : Z * list Z) : Prop :=
  (2 <= List.length (snd e) <= 10)%nat
  /\ (Z.land (at_ (snd e) 0) 0x0f = i
      \/ Z.land (at_ (snd e) 0) 0x0f = 0x00
      \/ Z.land (at_ (snd e) 0) 0x0f = 0x0f).

(** What one loop iteration hands to the line driver: at most four PINGs of
    candidates of the device-type row, then at most three replies. *)
Definition iteration_output (t : cec_device_type) (l i : Z) (w : world)
  (r : Z * world) : Prop :=
  exists (k : nat) (replies : list (Z * list Z)),
    wire (snd r) = wire w ++ pings_of l t O k ++ replies
    /\ (k <= NUM_LADDRESS)%nat
    /\ (List.length replies <= 3)%nat
    /\ Forall (reply_to i) replies.

(** With a configured logical address, the responder holds that address and
    has sent no PING. *)
Definition fixed_address_inv (c : cec_config_t) (w : world) : Prop :=
  config w = c
  /\ laddr w = logical_address c
  /\ Forall (fun e => (1 < List.length (snd e))%nat) (wire w).

(** A handler holds the configured address when its result does. *)
Definition holds_fixed (c : cec_config_t) (r : Z * world) : Prop :=
  fixed_address_inv c (snd r).

Module CecLogTask.
Import CecLog.

(** [cec_log_init]: the message buffer is created empty and logging is
    off. *)
Definition cec_log_init : log_state := {| enabled := false; log_mb := [] |}.

(** [xMessageBufferReceive(log_mb, buffer, size, timeout)] of FreeRTOS: the
    oldest message is copied out when it fits in [size] bytes; an empty
    buffer (at the timeout) and a message that does not fit both return 0
    and leave the buffer as it is.  A message is a line with its NUL. *)
Definition xMessageBufferReceive (size : nat) (st : log_state)
  : (string * nat) * log_state :=
  match log_mb st with
  | [] => ((EmptyString, O), st)
  | line :: rest =>
      if (String.length line + 1 <=? size)%nat
      then ((line, (String.length line + 1)%nat),
            {| enabled := enabled st; log_mb := rest |})
      else ((EmptyString, O), st)
  end.

(** One iteration of the loop of [cec_log_task]; [sink] lists the lines the
    callback [log] was called with, oldest first. *)
Definition cec_log_task_iteration (sink : list string) (st : log_state)
  : list string * log_state :=
  let '((buffer, bytes), st') := xMessageBufferReceive LOG_LINE_LENGTH st in
  if Nat.ltb 0 bytes then (sink ++ [buffer], st') else (sink, st').

(** [n] iterations of the loop. *)
Fixpoint cec_log_task (n : nat) (sink : list string) (st : log_state)
  : list string * log_state :=
  match n with
  | O => (sink, st)
  | S n' =>
      let (sink', st') := cec_log_task_iteration sink st in
      cec_log_task n' sink' st'
  end.

(** Lines submitted one after the other. *)
Definition submit_all (lines : list string) (st : log_state) : log_state :=
  fold_left (fun st line => cec_log_submitf line st) lines st.

(** A line that [cec_log_vsubmitf] hands on: shorter than the line
    buffer. *)
Definition short (line : string) : bool :=
  Nat.ltb (String.length line) LOG_LINE_LENGTH.

(** Every message in the buffer fits the line buffer of the consumer. *)
Definition lines_fit (st : log_state) : Prop :=
  Forall (fun line => (String.length line < LOG_LINE_LENGTH)%nat) (log_mb st).

End CecLogTask.

(** Two frames as the logger gets them: a GIVE_OSD_NAME, and a
    REPORT_POWER_STATUS that reports the transition from standby to on. *)
Definition frame_give_osd_name : CecLog.cec_frame_t :=
  CecLog.mk_frame (CecLog.mk_message [0x04; 0x46] 2) true.
Definition frame_power_transition : CecLog.cec_frame_t :=
  CecLog.mk_frame (CecLog.mk_message [0x40; 0x90; 0x02] 3) true.

(** A FEATURE_ABORT whose reason operand is 9. *)
Definition frame_abort_reason_9 : CecLog.cec_frame_t :=
  CecLog.mk_frame (CecLog.mk_message [0x40; 0x00; 0x46; 0x09] 4) true.

(** A directed key press with operand [0x41] under a keymap that knows it,
    and the release that follows. *)
Definition volume_keys : Z -> command_t :=
  fun k => if k =? 0x41 then mk_command (Some "Volume Up"%string) 0x80
           else mk_command None 0.
Definition cfg_keys : cec_config_t :=
  mk_config 0 0x3000 4 PlaybackDevice volume_keys.
Definition w_keys : world :=
  exec (cec_task_startup bus_silent) (initial_world cfg_keys).

(** * Properties *)

(** ** Octet arithmetic *)

Lemma low_nibble_range (x : Z) : 0 <= Z.land x 0x0f < 16.
Proof.
  change 0x0f with (Z.ones 4). rewrite Z.land_ones by lia.
  apply Z.mod_pos_bound. reflexivity.
Qed.

Lemma nibble_range (x : Z) : 0 <= Z.shiftr (Z.land x 0xf0) 4 < 16.
Proof.
  rewrite Z.shiftr_land. change (Z.shiftr 0xf0 4) with 0x0f.
  apply low_nibble_range.
Qed.

(** The header octet carries the initiator in its high nibble, provided both
    addresses are four bits wide. *)
Lemma header0_high_nibble (i d : Z) :
  0 <= i < 16 -> 0 <= d < 16 -> Z.shiftr (u8 (HEADER0 i d)) 4 = i.
Proof.
  intros Hi Hd.
  assert (Ei : i = 0 \/ i = 1 \/ i = 2 \/ i = 3 \/ i = 4 \/ i = 5 \/ i = 6
               \/ i = 7 \/ i = 8 \/ i = 9 \/ i = 10 \/ i = 11 \/ i = 12
               \/ i = 13 \/ i = 14 \/ i = 15) by lia.
  assert (Ed : d = 0 \/ d = 1 \/ d = 2 \/ d = 3 \/ d = 4 \/ d = 5 \/ d = 6
               \/ d = 7 \/ d = 8 \/ d = 9 \/ d = 10 \/ d = 11 \/ d = 12
               \/ d = 13 \/ d = 14 \/ d = 15) by lia.
  clear Hi Hd.
  repeat (destruct Ei as [Ei | Ei]; [ subst i | ]); try subst i;
    repeat (destruct Ed as [Ed | Ed]; [ subst d | ]); try subst d;
    reflexivity.
Qed.

Lemma header0_low_nibble (l d : Z) :
  0 <= d < 16 -> Z.land (u8 (HEADER0 l d)) 0x0f = d.
Proof.
  intros Hd. unfold u8, HEADER0.
  rewrite <- Z.land_assoc. change (Z.land 255 15) with (Z.ones 4).
  rewrite Z.land_lor_distr_l, !Z.land_ones by lia.
  rewrite Z.shiftl_mul_pow2 by lia. rewrite Z.mod_mul by (cbv; congruence).
  rewrite Z.lor_0_l. apply Z.mod_small. exact Hd.
Qed.

(** ** The receive buffer *)

Lemma fresh_pld_at (i : nat) : at_ fresh_pld i = 0.
Proof.
  unfold at_, fresh_pld.
  destruct (Nat.lt_ge_cases i 16) as [H | H].
  - apply nth_repeat_lt; exact H.
  - apply nth_overflow. rewrite repeat_length. exact H.
Qed.

Lemma received_length (data : list Z) : List.length (received data) = 16%nat.
Proof.
  unfold received, cec_frame_recv, fresh_pld. cbn [fst].
  rewrite length_app, length_skipn, repeat_length, length_firstn. lia.
Qed.

(** Within the buffer, the octets the driver stored are those of the frame,
    and every other octet is the zero the loop body put there. *)
Lemma received_at (data : list Z) (i : nat) :
  (i < 16)%nat -> at_ (received data) i = at_ data i.
Proof.
  intros Hi. unfold received, cec_frame_recv, at_. cbn [fst].
  destruct (Nat.lt_ge_cases i (List.length (firstn 16 data))) as [H | H].
  - rewrite app_nth1 by exact H.
    rewrite length_firstn in H.
    rewrite <- (firstn_skipn 16 data) at 2.
    rewrite app_nth1 by (rewrite length_firstn; exact H). reflexivity.
  - rewrite app_nth2 by exact H.
    rewrite length_firstn in *.
    rewrite (nth_overflow data) by lia.
    rewrite nth_skipn. apply fresh_pld_at.
Qed.

Lemma received_beyond (data : list Z) (i : nat) :
  (List.length data <= i)%nat -> at_ (received data) i = 0.
Proof.
  intros H.
  destruct (Nat.lt_ge_cases i 16) as [Hi | Hi].
  - rewrite received_at by exact Hi. unfold at_. apply nth_overflow. exact H.
  - unfold at_. apply nth_overflow. rewrite received_length. exact Hi.
Qed.

(** ** One loop iteration *)

Section Iteration.

Variable env : bus.

(** A frame of at most one octet is a poll: the [switch] is not entered. *)
Lemma iteration_short (data : list Z) (w : world) :
  (List.length data <= 1)%nat -> cec_task_iteration env data w = (tt, w).
Proof.
  intros H. unfold cec_task_iteration, cec_frame_recv.
  assert (E : (1 <? Z.of_nat (List.length (firstn 16 data))) = false).
  { apply Z.ltb_ge. rewrite length_firstn. lia. }
  rewrite E. reflexivity.
Qed.

(** A longer frame is dispatched on the buffer it was received in, with the
    counter at zero. *)
Lemma iteration_long (data : list Z) (w : world) :
  (1 < List.length data)%nat ->
  cec_task_iteration env data w =
  (_ <- dispatch env (received data) (initiator_of data)
          (destination_of data) 0 ;; ret tt) w.
Proof.
  intros H. unfold initiator_of, destination_of.
  rewrite <- (received_at data 0) by lia.
  unfold cec_task_iteration, received, cec_frame_recv. cbn [fst].
  assert (E : (1 <? Z.of_nat (List.length (firstn 16 data))) = true).
  { apply Z.ltb_lt. rewrite length_firstn. lia. }
  rewrite E. reflexivity.
Qed.

End Iteration.

(** ** Unknown opcodes *)

(** Every comparison of the [switch] fails on an opcode outside
    [dispatch_set]. *)
Ltac split_unrecognized H :=
  unfold recognized, dispatch_set in H; cbn [existsb] in H;
  repeat (apply orb_false_elim in H; destruct H as [? H]); clear H.

Ltac rewrite_comparisons :=
  repeat match goal with
         | E : (?a =? ?b) = _ |- _ => rewrite E; clear E
         end.

(** Running the monad on a world whose shape is known. *)
Ltac run :=
  cbv beta iota zeta delta
    [bind ret get when exec eval fst snd
     set_laddr set_paddr set_active_addr set_audio_status set_menu_state
     cec_frame_send ddc_get_physical_address blink xQueueSend
     cec_feature_abort device_vendor_id report_power_status
     set_system_audio_mode report_audio_status system_audio_mode_status
     set_osd_name report_physical_address report_cec_version cec_ping
     image_view_on active_source menu_status with_wire];
  cbn [config laddr paddr active_addr audio_status menu_state wire ddc_reads
       blinks hid_queue firstn List.length].

Lemma default_case (env : bus) (pld : list Z) (i d n : Z) (w : world) :
  recognized (at_ pld 1) = false ->
  dispatch env pld i d n w =
  (l <- get laddr ;;
   when (d =? l)
        (cec_feature_abort env l i (at_ pld 1) CEC_ABORT_UNRECOGNIZED) ;;
   ret n) w.
Proof.
  intros H. split_unrecognized H.
  unfold dispatch. cbv zeta. rewrite_comparisons. reflexivity.
Qed.

(** C7. An inbound frame that carries an opcode outside the dispatch set is
    answered, when it is addressed to [laddr], by exactly one FEATURE_ABORT
    frame to the initiator that names the opcode with reason UNRECOGNIZED,
    and leaves the responder untouched when it is addressed elsewhere.  For
    [laddr = 4] and input [0x04, 0xAA] the frame sent is
    [0x40, 0x00, 0xAA, 0x00]. *)
Theorem unknown_opcode_feature_abort (env : bus) (w : world) (data : list Z) :
  (1 < List.length data)%nat ->
  recognized (at_ data 1) = false ->
  let w' := exec (cec_task_iteration env data) w in
  (destination_of data = laddr w ->
   wire w' = wire w ++
     [(laddr w, [u8 (HEADER0 (laddr w) (initiator_of data));
                 CEC_ID_FEATURE_ABORT; at_ data 1; CEC_ABORT_UNRECOGNIZED])])
  /\ (destination_of data <> laddr w -> w' = w)
  /\ (laddr w = 4 -> data = [0x04; 0xAA] ->
      frames w' = frames w ++ [[0x40; 0x00; 0xAA; 0x00]]).
Proof.
  intros Hlen Hop w'.
  assert (E : w' = exec (l <- get laddr ;;
                when (destination_of data =? l)
                  (cec_feature_abort env l (initiator_of data) (at_ data 1)
                     CEC_ABORT_UNRECOGNIZED) ;;
                ret 0) w).
  { subst w'. unfold exec. rewrite iteration_long by exact Hlen.
    unfold bind at 1. rewrite default_case
      by (rewrite received_at by lia; exact Hop).
    rewrite received_at by lia.
    destruct ((l <- get laddr ;; _) w). reflexivity. }
  clearbody w'. subst w'. split; [ | split ].
  - intros Hd. run. rewrite Hd, Z.eqb_refl. reflexivity.
  - intros Hd. run. apply Z.eqb_neq in Hd. rewrite Hd. reflexivity.
  - intros Hl Hdata. subst data. run.
    unfold destination_of, initiator_of, at_. cbn [nth].
    rewrite Hl. unfold frames. cbn. rewrite map_app. reflexivity.
Qed.

Lemma unknown_opcode_feature_abort_witness :
  (1 < List.length [0x04; 0xAA])%nat
  /\ recognized (at_ [0x04; 0xAA] 1) = false
  /\ frames (exec (cec_task_iteration bus_silent [0x04; 0xAA]) w_scenario)
     = frames w_scenario ++ [[0x40; 0x00; 0xAA; 0x00]].
Proof.
  split; [ simpl; lia | split; [ reflexivity | ] ].
  refine (proj2 (proj2
    (unknown_opcode_feature_abort bus_silent w_scenario [0x04; 0xAA] _ _))
    _ _).
  - simpl; lia.
  - reflexivity.
  - reflexivity.
  - reflexivity.
Defined.

(** ** Recognised opcodes *)

(** Selecting the [case] of an opcode whose value is known: the comparisons
    of the [switch] are then between constants. *)
Ltac pick_case H :=
  unfold dispatch; cbv zeta; rewrite ?H;
  cbn [Z.eqb Pos.eqb
       CEC_ID_FEATURE_ABORT CEC_ID_IMAGE_VIEW_ON CEC_ID_TEXT_VIEW_ON
       CEC_ID_STANDBY CEC_ID_USER_CONTROL_PRESSED
       CEC_ID_USER_CONTROL_RELEASED CEC_ID_GIVE_OSD_NAME CEC_ID_SET_OSD_NAME
       CEC_ID_SYSTEM_AUDIO_MODE_REQUEST CEC_ID_GIVE_AUDIO_STATUS
       CEC_ID_SET_SYSTEM_AUDIO_MODE CEC_ID_REPORT_AUDIO_STATUS
       CEC_ID_GIVE_SYSTEM_AUDIO_MODE_STATUS CEC_ID_SYSTEM_AUDIO_MODE_STATUS
       CEC_ID_ROUTING_CHANGE CEC_ID_ACTIVE_SOURCE
       CEC_ID_GIVE_PHYSICAL_ADDRESS CEC_ID_REPORT_PHYSICAL_ADDRESS
       CEC_ID_REQUEST_ACTIVE_SOURCE CEC_ID_SET_STREAM_PATH
       CEC_ID_DEVICE_VENDOR_ID CEC_ID_GIVE_DEVICE_VENDOR_ID
       CEC_ID_MENU_REQUEST CEC_ID_MENU_STATUS
       CEC_ID_GIVE_DEVICE_POWER_STATUS CEC_ID_REPORT_POWER_STATUS
       CEC_ID_GET_MENU_LANGUAGE CEC_ID_INACTIVE_SOURCE CEC_ID_CEC_VERSION
       CEC_ID_GET_CEC_VERSION CEC_ID_VENDOR_COMMAND_WITH_ID
       CEC_ID_REQUEST_ARC_INITIATION CEC_ID_ABORT].

Section Cases.

Variable env : bus.

Lemma menu_request_case (pld : list Z) (i d n : Z) (w : world) :
  at_ pld 1 = CEC_ID_MENU_REQUEST ->
  dispatch env pld i d n w =
  (l <- get laddr ;;
   when (d =? l)
        (let request := at_ pld 2 in
         (if request =? CEC_MENU_ACTIVATE then set_menu_state true
          else if request =? CEC_MENU_DEACTIVATE then set_menu_state false
          else if request =? CEC_MENU_QUERY then ret tt
          else ret tt) ;;
         m <- get menu_state ;;
         menu_status env l i m) ;;
   ret n) w.
Proof. intros H. pick_case H. reflexivity. Qed.

Lemma set_stream_path_case (pld : list Z) (i d n : Z) (w : world) :
  at_ pld 1 = CEC_ID_SET_STREAM_PATH ->
  dispatch env pld i d n w =
  (l <- get laddr ;;
   p <- get paddr ;;
   if p =? Z.lor (Z.shiftl (at_ pld 2) 8) (at_ pld 3) then
     set_active_addr p ;;
     image_view_on env l 0x00 ;;
     active_source env l p ;;
     set_menu_state true ;;
     m <- get menu_state ;;
     menu_status env l 0x00 m ;;
     blink Blink_set_blink_GREEN_2HZ ;;
     ret 0
   else ret n) w.
Proof. intros H. pick_case H. reflexivity. Qed.

Lemma set_system_audio_mode_case (pld : list Z) (i d n : Z) (w : world) :
  at_ pld 1 = CEC_ID_SET_SYSTEM_AUDIO_MODE ->
  dispatch env pld i d n w =
  (l <- get laddr ;;
   when ((d =? l) || (d =? 0x0f)) (set_audio_status (at_ pld 2 =? 1)) ;;
   ret n) w.
Proof. intros H. pick_case H. reflexivity. Qed.

Lemma request_active_source_case (pld : list Z) (i d n : Z) (w : world) :
  at_ pld 1 = CEC_ID_REQUEST_ACTIVE_SOURCE ->
  dispatch env pld i d n w =
  (let no_active := u8 (n + 1) in
   l <- get laddr ;;
   p <- get paddr ;;
   act <- get active_addr ;;
   if (p =? act) || (2 <? no_active) then
     image_view_on env l 0x00 ;;
     active_source env l p ;;
     ret 0
   else ret no_active) w.
Proof. intros H. pick_case H. reflexivity. Qed.

End Cases.

Lemma exec_iteration_long (env : bus) (data : list Z) (w : world) :
  (1 < List.length data)%nat ->
  exec (cec_task_iteration env data) w =
  exec (dispatch env (received data) (initiator_of data)
          (destination_of data) 0) w.
Proof.
  intros H. unfold exec. rewrite iteration_long by exact H.
  unfold bind, ret. destruct (dispatch _ _ _ _ _ w). reflexivity.
Qed.

(** ** MENU_REQUEST *)

(** C10. A MENU_REQUEST addressed to [laddr] whose operand is none of
    activate, deactivate and query leaves [menu_state] as it was, and a
    MENU_STATUS reply that carries the current [menu_state] still goes to the
    initiator. *)
Theorem menu_request_other_operand (env : bus) (w : world) (data : list Z) :
  (1 < List.length data)%nat ->
  at_ data 1 = CEC_ID_MENU_REQUEST ->
  destination_of data = laddr w ->
  at_ data 2 <> CEC_MENU_ACTIVATE ->
  at_ data 2 <> CEC_MENU_DEACTIVATE ->
  at_ data 2 <> CEC_MENU_QUERY ->
  let w' := exec (cec_task_iteration env data) w in
  menu_state w' = menu_state w
  /\ wire w' = wire w ++
       [(laddr w, [u8 (HEADER0 (laddr w) (initiator_of data));
                   CEC_ID_MENU_STATUS;
                   if menu_state w then CEC_MENU_ACTIVATE
                   else CEC_MENU_DEACTIVATE])].
Proof.
  intros Hlen Hop Hd Ha Hde Hq w'. subst w'.
  rewrite exec_iteration_long by exact Hlen.
  unfold exec. rewrite menu_request_case
    by (rewrite received_at by lia; exact Hop).
  rewrite received_at by lia.
  apply Z.eqb_neq in Ha, Hde, Hq.
  run. rewrite Hd, Z.eqb_refl, Ha, Hde, Hq. run.
  split; [ reflexivity | ].
  destruct (menu_state w); reflexivity.
Qed.

Lemma menu_request_other_operand_witness :
  let data := [0x04; 0x8D; 0x07] in
  let w' := exec (cec_task_iteration bus_silent data) w_scenario in
  menu_state w' = menu_state w_scenario
  /\ wire w' = wire w_scenario ++ [(4, [0x40; 0x8E; 0x01])].
Proof.
  apply (menu_request_other_operand bus_silent w_scenario [0x04; 0x8D; 0x07]);
    try reflexivity; try discriminate.
  simpl; lia.
Defined.

(** ** SET_STREAM_PATH *)

(** C2, as amended.  With [laddr = 4] and [paddr = 0x3000], a
    SET_STREAM_PATH whose operand equals [paddr] leaves
    [active_addr = paddr] and [menu_state = true], and exactly three frames
    are sent, in this order: [0x40, 0x04], [0x4F, 0x82, 0x30, 0x00] and
    [0x40, 0x8E, 0x00].  The operand of MENU_STATUS is [CEC_MENU_ACTIVATE],
    which is [0x00]. *)
Theorem set_stream_path_selects (env : bus) (w : world) (data : list Z) :
  laddr w = 4 ->
  paddr w = 0x3000 ->
  (1 < List.length data)%nat ->
  at_ data 1 = CEC_ID_SET_STREAM_PATH ->
  Z.lor (Z.shiftl (at_ data 2) 8) (at_ data 3) = paddr w ->
  let w' := exec (cec_task_iteration env data) w in
  active_addr w' = paddr w'
  /\ menu_state w' = true
  /\ frames w' = frames w ++
       [[0x40; 0x04]; [0x4F; 0x82; 0x30; 0x00]; [0x40; 0x8E; 0x00]].
Proof.
  intros Hl Hp Hlen Hop Hoperand w'. subst w'.
  rewrite exec_iteration_long by exact Hlen.
  unfold exec. rewrite set_stream_path_case
    by (rewrite received_at by lia; exact Hop).
  rewrite !received_at by lia.
  run. rewrite Hoperand, Z.eqb_refl. run.
  split; [ reflexivity | split; [ reflexivity | ] ].
  unfold frames. cbn [wire]. rewrite Hl, Hp.
  rewrite <- !app_assoc, map_app. reflexivity.
Qed.

Lemma set_stream_path_selects_witness :
  let data := [0x0F; 0x86; 0x30; 0x00] in
  let w' := exec (cec_task_iteration bus_silent data) w_scenario in
  active_addr w' = paddr w'
  /\ menu_state w' = true
  /\ frames w' = frames w_scenario ++
       [[0x40; 0x04]; [0x4F; 0x82; 0x30; 0x00]; [0x40; 0x8E; 0x00]].
Proof.
  apply (set_stream_path_selects bus_silent w_scenario
           [0x0F; 0x86; 0x30; 0x00]); try reflexivity.
  simpl; lia.
Defined.

(** C2, as stated, fails on scenario 3 of §8: the third frame sent is not
    [0x40, 0x8E, 0x01]. *)
Lemma set_stream_path_menu_status_operand :
  let data := [0x0F; 0x86; 0x30; 0x00] in
  let w' := exec (cec_task_iteration bus_silent data) w_scenario in
  laddr w_scenario = 4 /\ paddr w_scenario = 0x3000
  /\ Z.lor (Z.shiftl (at_ data 2) 8) (at_ data 3) = paddr w_scenario
  /\ frames w' = [[0x40; 0x04]; [0x4F; 0x82; 0x30; 0x00]; [0x40; 0x8E; 0x00]]
  /\ frames w' <> frames w_scenario ++
       [[0x40; 0x04]; [0x4F; 0x82; 0x30; 0x00]; [0x40; 0x8E; 0x01]].
Proof.
  cbv zeta. repeat split; try reflexivity.
  vm_compute. discriminate.
Qed.

(** ** Frames shorter than their operands *)

Lemma received_ext (d1 d2 : list Z) :
  (forall i, (i < 16)%nat -> at_ d1 i = at_ d2 i) -> received d1 = received d2.
Proof.
  intros H. apply (nth_ext _ _ 0 0).
  - rewrite !received_length. reflexivity.
  - intros n Hn. rewrite received_length in Hn.
    change (at_ (received d1) n = at_ (received d2) n).
    rewrite !received_at by exact Hn. apply H. exact Hn.
Qed.

Lemma zero_padded_at (data : list Z) (i : nat) :
  at_ (zero_padded data) i = at_ data i.
Proof.
  unfold zero_padded, at_.
  destruct (Nat.lt_ge_cases i (List.length data)) as [H | H].
  - apply app_nth1. exact H.
  - rewrite app_nth2 by exact H. rewrite (nth_overflow data) by exact H.
    destruct (Nat.lt_ge_cases (i - List.length data)
                (16 - List.length data)) as [H' | H'].
    + apply nth_repeat_lt. exact H'.
    + apply nth_overflow. rewrite repeat_length. exact H'.
Qed.

(** C9. The loop body hands a buffer of sixteen zero octets to
    [cec_frame_recv], the handlers read the buffer it comes back in, and
    every octet of it at an index at or beyond the reported length is
    [0x00]; so a SET_SYSTEM_AUDIO_MODE frame of length 2 that the driver
    delivers (addressed to [laddr] or broadcast) sets [audio_status] to
    false. *)
Theorem receive_buffer_zero_beyond_length
  (env : bus) (w : world) (data : list Z) :
  (forall i, at_ fresh_pld i = 0)
  /\ ((1 < List.length data)%nat ->
      exec (cec_task_iteration env data) w =
      exec (dispatch env (fst (cec_frame_recv fresh_pld data))
              (initiator_of data) (destination_of data) 0) w)
  /\ (forall i, (List.length data <= i)%nat ->
      at_ (fst (cec_frame_recv fresh_pld data)) i = 0)
  /\ (List.length data = 2%nat ->
      at_ data 1 = CEC_ID_SET_SYSTEM_AUDIO_MODE ->
      destination_of data = laddr w \/ destination_of data = 0x0f ->
      audio_status (exec (cec_task_iteration env data) w) = false).
Proof.
  split; [ exact fresh_pld_at | ].
  split; [ apply exec_iteration_long | ].
  split; [ apply received_beyond | ].
  intros Hlen Hop Hd.
  rewrite exec_iteration_long by lia.
  unfold exec. rewrite set_system_audio_mode_case
    by (rewrite received_at by lia; exact Hop).
  rewrite received_beyond by lia.
  run.
  assert (E : (destination_of data =? laddr w)
              || (destination_of data =? 15) = true).
  { apply orb_true_iff. destruct Hd as [Hd | Hd]; [ left | right ];
      apply Z.eqb_eq; exact Hd. }
  rewrite E. reflexivity.
Qed.

Lemma receive_buffer_zero_beyond_length_witness :
  audio_status w_audio_on = true
  /\ at_ (fst (cec_frame_recv fresh_pld [0x0F; 0x72])) 2 = 0
  /\ audio_status
       (exec (cec_task_iteration bus_silent [0x0F; 0x72]) w_audio_on) = false.
Proof.
  split; [ reflexivity | split ].
  - apply (proj1 (proj2 (proj2
      (receive_buffer_zero_beyond_length bus_silent w_audio_on
         [0x0F; 0x72])))).
    simpl; lia.
  - apply (proj2 (proj2 (proj2
      (receive_buffer_zero_beyond_length bus_silent w_audio_on
         [0x0F; 0x72])))).
    + reflexivity.
    + reflexivity.
    + right. reflexivity.
Defined.

(** C3, as stated, fails: a SET_SYSTEM_AUDIO_MODE of length 2 switches
    [audio_status] off, and a ROUTING_CHANGE of length 2 clears
    [active_addr]. *)
Lemma short_frame_acted_upon :
  (List.length [0x0F; 0x72] = 2%nat
   /\ audio_status w_audio_on = true
   /\ audio_status
        (exec (cec_task_iteration bus_silent [0x0F; 0x72]) w_audio_on)
      = false)
  /\ (List.length [0x0F; 0x80] = 2%nat
      /\ active_addr w_selected = 0x3000
      /\ active_addr
           (exec (cec_task_iteration bus_silent [0x0F; 0x80]) w_selected)
         = 0x0000).
Proof. repeat split. Qed.

(** ** REQUEST_ACTIVE_SOURCE and the election counter *)

(** Dispatched with the counter at zero while [paddr <> active_addr], a
    REQUEST_ACTIVE_SOURCE raises the counter to 1 and does nothing else. *)
Lemma request_active_source_counts_to_one
  (env : bus) (pld : list Z) (i d : Z) (w : world) :
  at_ pld 1 = CEC_ID_REQUEST_ACTIVE_SOURCE ->
  paddr w <> active_addr w ->
  dispatch env pld i d 0 w = (1, w).
Proof.
  intros Hop Hp. rewrite request_active_source_case by exact Hop.
  run. apply Z.eqb_neq in Hp. rewrite Hp. reflexivity.
Qed.

(** C1, on the code.  The counter is a local of the loop body and is zero
    when a frame is dispatched: a REQUEST_ACTIVE_SOURCE received while
    [paddr <> active_addr] raises it to 1, which does not exceed 2, and the
    value is lost when the iteration ends.  So however many such frames
    arrive in a row, nothing is sent and the responder stays as it was. *)
Theorem request_active_source_counter_restarts
  (env : bus) (inbound : list (list Z)) (w : world) :
  Forall (fun data => (1 < List.length data)%nat
                      /\ at_ data 1 = CEC_ID_REQUEST_ACTIVE_SOURCE) inbound ->
  paddr w <> active_addr w ->
  exec (cec_task_loop env inbound) w = w.
Proof.
  intros Hall Hp. induction Hall as [ | data rest [Hlen Hop] _ IH ].
  - reflexivity.
  - assert (E : cec_task_iteration env data w = (tt, w)).
    { rewrite iteration_long by exact Hlen.
      unfold bind at 1. rewrite request_active_source_counts_to_one.
      - reflexivity.
      - rewrite received_at by lia. exact Hop.
      - exact Hp. }
    unfold exec in *. cbn [cec_task_loop]. unfold bind. rewrite E. exact IH.
Qed.

Lemma request_active_source_counter_restarts_witness :
  paddr w_scenario <> active_addr w_scenario
  /\ exec (cec_task_loop bus_silent
             [[0x0F; 0x85]; [0x0F; 0x85]; [0x0F; 0x85]; [0x0F; 0x85]])
       w_scenario = w_scenario.
Proof.
  split; [ discriminate | ].
  apply (request_active_source_counter_restarts bus_silent
           [[0x0F; 0x85]; [0x0F; 0x85]; [0x0F; 0x85]; [0x0F; 0x85]]
           w_scenario).
  - repeat constructor.
  - discriminate.
Defined.

(** ** The log channel *)

Module CecLogFacts.
Import CecLog.

Lemma substring_all (n : nat) (s : string) :
  (String.length s <= n)%nat -> substring 0 n s = s.
Proof.
  revert n. induction s as [ | c s IH ]; intros n H.
  - destruct n; reflexivity.
  - destruct n as [ | n ]; [ simpl in H; lia | ].
    simpl. f_equal. apply IH. simpl in H. lia.
Qed.

Lemma substring_length (n : nat) (s : string) :
  (n <= String.length s)%nat -> String.length (substring 0 n s) = n.
Proof.
  revert n. induction s as [ | c s IH ]; intros n H.
  - simpl in H. destruct n; [ reflexivity | lia ].
  - destruct n as [ | n ]; [ reflexivity | ].
    simpl. f_equal. apply IH. simpl in H. lia.
Qed.

(** C4, as amended.  While logging is enabled, a line whose expansion is 64
    characters or longer is cut to 63 characters in the local line buffer,
    and is then discarded: nothing is handed to the message buffer.  A
    shorter line is handed over whole. *)
Theorem overlong_line_dropped (st : log_state) (expansion : string) :
  enabled st = true ->
  ((LOG_LINE_LENGTH <= String.length expansion)%nat ->
   String.length (fst (vsnprintf LOG_LINE_LENGTH expansion)) = 63%nat
   /\ fst (vsnprintf LOG_LINE_LENGTH expansion) = substring 0 63 expansion
   /\ cec_log_vsubmitf expansion st = st)
  /\ ((String.length expansion < LOG_LINE_LENGTH)%nat ->
      log_mb (cec_log_vsubmitf expansion st) = log_mb st ++ [expansion]).
Proof.
  intros Hen. unfold cec_log_vsubmitf, vsnprintf, LOG_LINE_LENGTH.
  rewrite Hen. cbn [fst Nat.sub]. split.
  - intros H. split; [ apply substring_length; lia | ].
    split; [ reflexivity | ].
    assert (E : (Z.of_nat (String.length expansion) <? Z.of_nat 64)%Z = false)
      by (apply Z.ltb_ge; lia).
    rewrite E. reflexivity.
  - intros H.
    assert (E : (Z.of_nat (String.length expansion) <? Z.of_nat 64)%Z = true)
      by (apply Z.ltb_lt; lia).
    rewrite E. unfold xMessageBufferSend. cbn [log_mb].
    rewrite substring_all by lia. reflexivity.
Qed.

Lemma overlong_line_dropped_witness :
  String.length (fst (vsnprintf LOG_LINE_LENGTH line64)) = 63%nat
  /\ cec_log_vsubmitf line64 log_on = log_on
  /\ log_mb (cec_log_vsubmitf "Allocated logical address 0x04" log_on)
     = ["Allocated logical address 0x04"%string].
Proof.
  destruct (overlong_line_dropped log_on line64 eq_refl) as [Hlong _].
  destruct (overlong_line_dropped log_on "Allocated logical address 0x04"
              eq_refl) as [_ Hshort].
  split; [ apply Hlong; vm_compute; lia | ].
  split; [ apply Hlong; vm_compute; lia | ].
  apply Hshort. vm_compute. lia.
Defined.

(** C4, as stated, fails: a line of exactly 64 characters, submitted while
    logging is enabled, is not enqueued, neither whole nor truncated. *)
Lemma overlong_line_not_enqueued :
  enabled log_on = true
  /\ String.length line64 = LOG_LINE_LENGTH
  /\ log_mb (cec_log_vsubmitf line64 log_on) = []
  /\ log_mb (cec_log_vsubmitf line64 log_on)
     <> log_mb log_on ++ [fst (vsnprintf LOG_LINE_LENGTH line64)].
Proof.
  repeat split. vm_compute. discriminate.
Qed.

(** An opcode without a mnemonic is none of the opcodes that
    [cec_log_frame] decodes by a [case] of its own. *)
Ltac split_absent H :=
  unfold cec_message, cec_message_entries in H; cbn [designated] in H;
  repeat lazymatch type of H with
         | (if ?b then _ else _) = None =>
             destruct b eqn:?; [ discriminate H | ]
         end.

(** Every mnemonic of the table is a non-empty string, so the test
    [strlen(message) > 0] never fails on an entry that is present. *)
Lemma cec_message_nonempty (cmd : Z) (s : string) :
  cec_message cmd = Some s -> (0 < String.length s)%nat.
Proof.
  intros H. unfold cec_message, cec_message_entries in H.
  cbn [designated] in H.
  repeat lazymatch type of H with
         | (if ?b then _ else _) = Some _ =>
             destruct b;
             [ injection H as <-; cbn [String.length]; apply Nat.lt_0_succ | ]
         end.
  discriminate H.
Qed.

(** C8, on the code.  For a frame whose opcode has no entry in
    [cec_message], [cec_log_frame] reaches its [default] case and calls
    [strlen] on the absent entry, a null pointer: the lookup is read through
    before it is checked, and no line is produced. *)
Theorem undecoded_opcode_null_dereference
  (LOG_BR : string) (names : Z -> cstring) (now : Z)
  (frame : cec_frame_t) (recv : bool) (st : log_state) :
  (1 < len (message frame))%Z ->
  cec_message (at_ (data (message frame)) 1) = None ->
  cec_log_frame LOG_BR names now frame recv st = Trap NullDereference.
Proof.
  intros Hlen Habsent. unfold cec_log_frame. cbv zeta.
  apply Z.ltb_lt in Hlen. rewrite Hlen.
  rewrite Habsent. split_absent Habsent.
  rewrite_comparisons. reflexivity.
Qed.

Lemma undecoded_opcode_null_dereference_witness :
  cec_message 0xAA = None
  /\ cec_log_frame "" (fun _ => None) 0 frame_0xAA false log_on
     = Trap NullDereference.
Proof.
  split; [ reflexivity | ].
  apply (undecoded_opcode_null_dereference "" (fun _ => None) 0 frame_0xAA
           false log_on); reflexivity.
Defined.

End CecLogFacts.

(** ** Logical-address allocation *)

Section Allocation.

Variable env : bus.

Lemma with_wire_same (w : world) : with_wire w (wire w) = w.
Proof. destruct w; reflexivity. Qed.

Lemma cec_ping_run (a : Z) (w : world) :
  cec_ping env a w =
  (acks env (List.length (wire w)),
   with_wire w (wire w ++ [ping_of (laddr w) a])).
Proof. reflexivity. Qed.

(** Every slot of the table is a four-bit address. *)
Lemma laddress_at_range (t : cec_device_type) (i : nat) :
  0 <= laddress_at t i < 16.
Proof.
  destruct t; do 5 (destruct i as [ | i ]; [ cbv; split; congruence | ]);
    cbv; split; congruence.
Qed.

(** The loop stops at the first candidate whose PING is not acknowledged,
    having probed the candidates before it. *)
Lemma allocate_loop_first_unacked (t : cec_device_type) :
  forall (n i : nat) (a : Z) (w : world) (j : nat),
    (j < n)%nat ->
    (forall m, (m < j)%nat -> acks env (List.length (wire w) + m) = true) ->
    acks env (List.length (wire w) + j) = false ->
    allocate_loop env t n i a w =
    (laddress_at t (i + j),
     with_wire w (wire w ++ pings_of (laddr w) t i (S j))).
Proof.
  induction n as [ | n IH ]; intros i a w j Hj Hacked Hfree; [ lia | ].
  cbn [allocate_loop]. unfold bind. rewrite cec_ping_run.
  destruct j as [ | j ].
  - rewrite Nat.add_0_r in Hfree. rewrite Hfree. cbn [negb].
    rewrite Nat.add_0_r. reflexivity.
  - rewrite <- (Nat.add_0_r (List.length (wire w))).
    rewrite (Hacked O) by lia. cbn [negb].
    rewrite (IH (S i) _ _ j).
    + cbn [with_wire laddr wire].
      rewrite <- app_assoc. replace (S i + j)%nat with (i + S j)%nat by lia.
      reflexivity.
    + lia.
    + intros m Hm. cbn [with_wire wire]. rewrite length_app. cbn [List.length].
      replace (List.length (wire w) + 1 + m)%nat
        with (List.length (wire w) + S m)%nat by lia.
      apply Hacked. lia.
    + cbn [with_wire wire]. rewrite length_app. cbn [List.length].
      replace (List.length (wire w) + 1 + j)%nat
        with (List.length (wire w) + S j)%nat by lia.
      exact Hfree.
Qed.

(** When every PING is acknowledged the loop runs out, and the value
    returned is the last candidate assigned. *)
Lemma allocate_loop_all_acked (t : cec_device_type) :
  forall (n i : nat) (a : Z) (w : world),
    (forall m, (m < n)%nat -> acks env (List.length (wire w) + m) = true) ->
    allocate_loop env t n i a w =
    (match n with O => a | S n' => laddress_at t (i + n') end,
     with_wire w (wire w ++ pings_of (laddr w) t i n)).
Proof.
  induction n as [ | n IH ]; intros i a w Hacked.
  - cbn. rewrite app_nil_r, with_wire_same. reflexivity.
  - cbn [allocate_loop]. unfold bind. rewrite cec_ping_run.
    rewrite <- (Nat.add_0_r (List.length (wire w))).
    rewrite (Hacked O) by lia. cbn [negb].
    rewrite IH.
    + cbn [with_wire laddr wire]. rewrite <- app_assoc.
      destruct n as [ | n ].
      * rewrite Nat.add_0_r. reflexivity.
      * replace (S i + n)%nat with (i + S n)%nat by lia. reflexivity.
    + intros m Hm. cbn [with_wire wire]. rewrite length_app. cbn [List.length].
      replace (List.length (wire w) + 1 + m)%nat
        with (List.length (wire w) + S m)%nat by lia.
      apply Hacked. lia.
Qed.

(** What allocation leaves behind, whatever the bus answers: a four-bit
    address, and a world that differs only by the PINGs it sent. *)
Lemma allocate_loop_effect (t : cec_device_type) :
  forall (n i : nat) (a : Z) (w : world),
    0 <= a < 16 ->
    exists (r : Z) (k : nat),
      allocate_loop env t n i a w =
      (r, with_wire w (wire w ++ pings_of (laddr w) t i k))
      /\ 0 <= r < 16.
Proof.
  induction n as [ | n IH ]; intros i a w Ha.
  - exists a, O. cbn. rewrite app_nil_r, with_wire_same. auto.
  - cbn [allocate_loop]. unfold bind. rewrite cec_ping_run.
    destruct (acks env (List.length (wire w))); cbn [negb].
    + destruct (IH (S i) (laddress_at t i)
                  (with_wire w (wire w ++ [ping_of (laddr w) (laddress_at t i)]))
                  (laddress_at_range t i)) as (r & k & E & Hr).
      exists r, (S k). rewrite E. split; [ | exact Hr ].
      cbn [with_wire laddr wire]. rewrite <- app_assoc. reflexivity.
    + exists (laddress_at t i), 1%nat. split; [ reflexivity | ].
      apply laddress_at_range.
Qed.

Lemma allocate_logical_address_effect (c : cec_config_t) (w : world) :
  0 <= logical_address c < 16 ->
  exists (r : Z) (k : nat),
    allocate_logical_address env c w =
    (r, with_wire w (wire w ++ pings_of (laddr w) (device_type c) O k))
    /\ 0 <= r < 16.
Proof.
  intros Hc. unfold allocate_logical_address.
  destruct (negb (logical_address c =? 0) && negb (logical_address c =? 15)).
  - exists (logical_address c), O. unfold ret. cbn.
    rewrite app_nil_r, with_wire_same. auto.
  - apply allocate_loop_effect. lia.
Qed.

End Allocation.

(** ** Outbound headers *)

Section Headers.

Variable env : bus.

(** Allocation probes at most the slots of the row and returns a four-bit
    address. *)
Lemma allocate_loop_bounded (t : cec_device_type) :
  forall (n i : nat) (a : Z) (w : world),
    0 <= a < 16 ->
    exists (r : Z) (k : nat),
      (k <= n)%nat
      /\ allocate_loop env t n i a w =
         (r, with_wire w (wire w ++ pings_of (laddr w) t i k))
      /\ 0 <= r < 16.
Proof.
  induction n as [ | n IH ]; intros i a w Ha.
  - exists a, O. split; [ lia | ]. cbn.
    rewrite app_nil_r, with_wire_same. auto.
  - cbn [allocate_loop]. unfold bind. rewrite cec_ping_run.
    destruct (acks env (List.length (wire w))); cbn [negb].
    + destruct (IH (S i) (laddress_at t i)
                  (with_wire w (wire w ++ [ping_of (laddr w) (laddress_at t i)]))
                  (laddress_at_range t i)) as (r & k & Hk & E & Hr).
      exists r, (S k). split; [ lia | ]. rewrite E. split; [ | exact Hr ].
      cbn [with_wire laddr wire]. rewrite <- app_assoc. reflexivity.
    + exists (laddress_at t i), 1%nat. split; [ lia | ].
      split; [ reflexivity | apply laddress_at_range ].
Qed.

Lemma allocate_logical_address_bounded (c : cec_config_t) (w : world) :
  0 <= logical_address c < 16 ->
  exists (r : Z) (k : nat),
    (k <= NUM_LADDRESS)%nat
    /\ allocate_logical_address env c w =
       (r, with_wire w (wire w ++ pings_of (laddr w) (device_type c) O k))
    /\ 0 <= r < 16.
Proof.
  intros Hc. unfold allocate_logical_address.
  destruct (negb (logical_address c =? 0) && negb (logical_address c =? 15)).
  - exists (logical_address c), O. split; [ lia | ]. unfold ret. cbn.
    rewrite app_nil_r, with_wire_same. auto.
  - apply allocate_loop_bounded. lia.
Qed.

Lemma pings_well_addressed (l : Z) (t : cec_device_type) (k : nat) :
  (k <= NUM_LADDRESS)%nat -> Forall (well_addressed t) (pings_of l t O k).
Proof.
  intros Hk. unfold pings_of. apply Forall_forall. intros e He.
  apply in_map_iff in He. destruct He as (j & <- & Hj).
  apply in_seq in Hj. left. exists j. split; [ lia | reflexivity ].
Qed.

Lemma reply_well_addressed (t : cec_device_type) (l d : Z) (rest : list Z) :
  0 <= l < 16 -> 0 <= d < 16 -> rest <> [] ->
  well_addressed t (l, u8 (HEADER0 l d) :: rest).
Proof.
  intros Hl Hd Hrest. right. split.
  - destruct rest; [ congruence | cbn; lia ].
  - cbn [snd fst at_ nth]. apply header0_high_nibble; assumption.
Qed.

Ltac crunch :=
  run;
  repeat (match goal with
          | |- context [if ?b then _ else _] => destruct b eqn:?
          | |- context [match name ?c with _ => _ end] => destruct (name c)
          end; run).

(** The two handlers that refresh [paddr] and [laddr], and the startup, run
    the allocation; what it leaves behind is known from
    [allocate_logical_address_bounded]. *)
Ltac probed Hc :=
  match goal with
  | |- context [allocate_logical_address env ?c ?w1] =>
      let r := fresh "r" in
      let k := fresh "k" in
      let Hk := fresh "Hk" in
      let E := fresh "E" in
      let Hr := fresh "Hr" in
      destruct (allocate_logical_address_bounded c w1 Hc)
        as (r & k & Hk & E & Hr);
      rewrite E
  end.

Ltac close_inv :=
  unfold keeps_inv, responder_inv;
  cbn [snd config laddr paddr active_addr audio_status menu_state wire];
  split; [ reflexivity | ];
  split; [ first [ assumption | lia ] | ];
  split; [ assumption | ];
  rewrite ?Forall_app; repeat split; try assumption;
  try (apply pings_well_addressed; assumption);
  repeat (apply Forall_cons;
          [ apply reply_well_addressed; [ lia | lia | discriminate ] | ]);
  try apply Forall_nil.

Ltac next_case tac :=
  lazymatch goal with
  | |- keeps_inv _ ((if ?b then _ else _) _) =>
      destruct b eqn:?; [ tac | ]
  end.

Lemma dispatch_inv (c : cec_config_t) (pld : list Z) (i d n : Z)
  (w : world) :
  0 <= i < 16 -> responder_inv c w ->
  keeps_inv c (dispatch env pld i d n w).
Proof.
  intros Hi (Hcfg & Hl & Hc & Hw). subst c. unfold dispatch. cbv zeta.
  repeat (next_case ltac:(unfold get_physical_address; crunch;
                          try (probed Hc; crunch); close_inv)).
  crunch; close_inv.
Qed.

Lemma iteration_inv (c : cec_config_t) (data : list Z) (w : world) :
  responder_inv c w ->
  responder_inv c (exec (cec_task_iteration env data) w).
Proof.
  intros Hinv.
  destruct (Nat.lt_ge_cases 1 (List.length data)) as [H | H].
  - rewrite exec_iteration_long by exact H.
    apply dispatch_inv; [ apply nibble_range | exact Hinv ].
  - unfold exec. rewrite iteration_short by exact H. exact Hinv.
Qed.

Lemma loop_inv (c : cec_config_t) (inbound : list (list Z)) :
  forall w, responder_inv c w ->
            responder_inv c (exec (cec_task_loop env inbound) w).
Proof.
  induction inbound as [ | data rest IH ]; intros w Hinv.
  - exact Hinv.
  - unfold exec. cbn [cec_task_loop]. unfold bind.
    pose proof (iteration_inv c data w Hinv) as H1. unfold exec in H1.
    destruct (cec_task_iteration env data w) as [u w1].
    apply IH. exact H1.
Qed.

Lemma startup_inv (c : cec_config_t) (w : world) :
  responder_inv c w -> keeps_inv c (cec_task_startup env w).
Proof.
  intros (Hcfg & Hl & Hc & Hw). subst c.
  unfold cec_task_startup, get_physical_address.
  crunch; probed Hc; crunch; close_inv.
Qed.

(** C5, as amended.  Over a whole run of the task, from its start, with a
    configured logical address of four bits: every frame of more than one
    octet handed to [cec_frame_send] has in the high nibble of octet 0 the
    [laddr] of the moment it was sent; every single-octet frame is a PING of
    allocation, which carries a candidate of the device-type row of the
    allocation table in both nibbles instead. *)
Theorem outbound_header_carries_laddr
  (c : cec_config_t) (inbound : list (list Z)) :
  0 <= logical_address c < 16 ->
  forall (l : Z) (f : list Z),
    In (l, f) (wire (exec (cec_task env inbound) (initial_world c))) ->
    (exists i,
        (i < NUM_LADDRESS)%nat
        /\ f = [u8 (HEADER0 (laddress_at (device_type c) i)
                      (laddress_at (device_type c) i))]
        /\ Z.shiftr (at_ f 0) 4 = laddress_at (device_type c) i
        /\ Z.land (at_ f 0) 0x0f = laddress_at (device_type c) i)
    \/ ((1 < List.length f)%nat /\ Z.shiftr (at_ f 0) 4 = l).
Proof.
  intros Hc l f Hin.
  assert (Hinv : responder_inv c
                   (exec (cec_task env inbound) (initial_world c))).
  { unfold exec, cec_task, bind.
    pose proof (startup_inv c (initial_world c)) as H0.
    unfold keeps_inv in H0.
    destruct (cec_task_startup env (initial_world c)) as [u w0].
    apply loop_inv. apply H0.
    unfold responder_inv, initial_world. cbn [laddr config wire].
    split; [ reflexivity | split; [ lia | split; [ exact Hc | constructor ] ] ]. }
  destruct Hinv as (_ & _ & _ & Hw).
  rewrite Forall_forall in Hw.
  destruct (Hw (l, f) Hin) as [(i & Hi & Hf) | Hlong].
  - left. exists i. cbn [snd] in Hf. subst f. cbn [at_ nth].
    pose proof (laddress_at_range (device_type c) i) as Hr.
    split; [ exact Hi | split; [ reflexivity | split ] ].
    + apply header0_high_nibble; exact Hr.
    + apply header0_low_nibble; exact Hr.
  - right. exact Hlong.
Qed.

End Headers.

Lemma outbound_header_carries_laddr_witness :
  let c := cfg_playback_auto in
  let w' := exec (cec_task bus_first_taken [[0x0F; 0x86; 0x30; 0x00]])
              (initial_world c) in
  let cases l f :=
    (exists i,
        (i < NUM_LADDRESS)%nat
        /\ f = [u8 (HEADER0 (laddress_at (device_type c) i)
                      (laddress_at (device_type c) i))]
        /\ Z.shiftr (at_ f 0) 4 = laddress_at (device_type c) i
        /\ Z.land (at_ f 0) 0x0f = laddress_at (device_type c) i)
    \/ ((1 < List.length f)%nat /\ Z.shiftr (at_ f 0) 4 = l) in
  wire w' = [(0x0f, [0x44]); (0x0f, [0x88]); (8, [0x80; 0x04]);
             (8, [0x8F; 0x82; 0x30; 0x00]); (8, [0x80; 0x8E; 0x00])]
  /\ cases 0x0f [0x88]
  /\ cases 8 [0x8F; 0x82; 0x30; 0x00].
Proof.
  cbv zeta.
  assert (Hwire : wire (exec (cec_task bus_first_taken
                                [[0x0F; 0x86; 0x30; 0x00]])
                          (initial_world cfg_playback_auto))
                  = [(0x0f, [0x44]); (0x0f, [0x88]); (8, [0x80; 0x04]);
                     (8, [0x8F; 0x82; 0x30; 0x00]); (8, [0x80; 0x8E; 0x00])])
    by reflexivity.
  split; [ exact Hwire | split ].
  - apply (outbound_header_carries_laddr bus_first_taken cfg_playback_auto
             [[0x0F; 0x86; 0x30; 0x00]]).
    + vm_compute. split; [ discriminate | reflexivity ].
    + rewrite Hwire. right. left. reflexivity.
  - apply (outbound_header_carries_laddr bus_first_taken cfg_playback_auto
             [[0x0F; 0x86; 0x30; 0x00]]).
    + vm_compute. split; [ discriminate | reflexivity ].
    + rewrite Hwire. do 3 right. left. reflexivity.
Defined.

(** C5, as stated, fails on the PING frames: a playback device that
    allocates by probing, on a bus where address 4 is taken, hands [0x44] and
    then [0x88] to the line driver while its [laddr] is still [0x0f], and
    ends with [laddr = 8]; the high nibble of [0x44] is neither. *)
Lemma ping_header_carries_candidate :
  let w := exec (cec_task_startup bus_first_taken)
             (initial_world cfg_playback_auto) in
  wire w = [(0x0f, [0x44]); (0x0f, [0x88])]
  /\ laddr w = 0x08
  /\ Z.shiftr (at_ [0x44] 0) 4 <> 0x0f
  /\ Z.shiftr (at_ [0x44] 0) 4 <> 0x08.
Proof.
  cbv zeta. split; [ reflexivity | split; [ reflexivity | ] ].
  split; discriminate.
Qed.

(** ** The allocation table *)

(** C6, as amended.  The final slot of a row is [0x0F] for the recording
    device, reserved, tuner and playback device rows, [0x00] for the TV row
    and [0x05] for the audio system row.  When allocating by probing, the
    candidates of the row are PINGed in order; allocation returns the first
    candidate whose PING is not acknowledged, and the final slot of the row
    when all four PINGs are acknowledged. *)
Theorem allocation_probes_row (env : bus) (c : cec_config_t) (w : world) :
  logical_address c = 0x00 \/ logical_address c = 0x0f ->
  let t := device_type c in
  let sent := List.length (wire w) in
  laddress_at t 3 =
    match t with TV => 0x00 | AudioSystem => 0x05 | _ => 0x0f end
  /\ (forall j,
        (j < NUM_LADDRESS)%nat ->
        (forall m, (m < j)%nat -> acks env (sent + m) = true) ->
        acks env (sent + j) = false ->
        allocate_logical_address env c w =
        (laddress_at t j,
         with_wire w (wire w ++ pings_of (laddr w) t O (S j))))
  /\ ((forall m, (m < NUM_LADDRESS)%nat -> acks env (sent + m) = true) ->
      allocate_logical_address env c w =
      (laddress_at t 3,
       with_wire w (wire w ++ pings_of (laddr w) t O NUM_LADDRESS))).
Proof.
  intros Hauto t sent.
  assert (E : negb (logical_address c =? 0) && negb (logical_address c =? 15)
              = false).
  { destruct Hauto as [-> | ->]; reflexivity. }
  split; [ destruct t; reflexivity | split ].
  - intros j Hj Hacked Hfree. unfold allocate_logical_address. rewrite E.
    apply (allocate_loop_first_unacked env t NUM_LADDRESS O 0 w j);
      assumption.
  - intros Hacked. unfold allocate_logical_address. rewrite E.
    apply (allocate_loop_all_acked env t NUM_LADDRESS O 0 w). exact Hacked.
Qed.

Lemma allocation_probes_row_witness :
  allocate_logical_address bus_first_taken cfg_playback_auto
    (initial_world cfg_playback_auto)
  = (0x08, with_wire (initial_world cfg_playback_auto)
             [(0x0f, [0x44]); (0x0f, [0x88])])
  /\ eval (allocate_logical_address bus_crowded cfg_playback_auto)
        (initial_world cfg_playback_auto) = 0x0f.
Proof.
  destruct (allocation_probes_row bus_first_taken cfg_playback_auto
              (initial_world cfg_playback_auto) (or_introl eq_refl))
    as (_ & Hfirst & _).
  destruct (allocation_probes_row bus_crowded cfg_playback_auto
              (initial_world cfg_playback_auto) (or_introl eq_refl))
    as (_ & _ & Hall).
  split.
  - apply (Hfirst 1%nat).
    + unfold NUM_LADDRESS. lia.
    + intros m Hm. assert (m = O) by lia. subst m. reflexivity.
    + reflexivity.
  - unfold eval. rewrite Hall; [ reflexivity | ].
    intros m _. reflexivity.
Defined.

(** C6, as stated, fails on the TV row, whose final slot is [0x00]: a TV
    that finds all four PINGs acknowledged allocates [0x00], and the audio
    system row ends in [0x05]. *)
Lemma tv_row_final_slot :
  laddress_at TV 3 = 0x00
  /\ laddress_at AudioSystem 3 = 0x05
  /\ forallb (acks bus_crowded) [0; 1; 2; 3]%nat = true
  /\ eval (allocate_logical_address bus_crowded cfg_tv_auto)
        (initial_world cfg_tv_auto) = 0x00
  /\ eval (allocate_logical_address bus_crowded cfg_tv_auto)
        (initial_world cfg_tv_auto) <> 0x0f.
Proof. repeat split. discriminate. Qed.

(** * Further properties of the responder *)

Ltac branches :=
  run;
  repeat (match goal with
          | |- context [if ?b then _ else _] => destruct b eqn:?
          | |- context [match name ?c with _ => _ end] => destruct (name c)
          end; run).

Ltac decode_tests :=
  repeat match goal with
         | H : (_ && _) = true |- _ => apply andb_true_iff in H; destruct H
         | H : (_ || _) = true |- _ => apply orb_true_iff in H; destruct H
         | H : (_ =? _) = true |- _ => apply Z.eqb_eq in H
         end.

(** The [switch], one [case] after the other in the order of the source,
    for a goal of the form [P w (dispatch ...)]. *)
Ltac each_case tac :=
  unfold dispatch; cbv zeta;
  repeat lazymatch goal with
         | |- ?P _ ((if ?b then _ else _) _) => destruct b eqn:?; [ tac | ]
         end;
  tac.

Ltac same_world w := cbn [snd]; destruct w; reflexivity.

Section Footprints.

Variable env : bus.

Lemma exec_loop_cons (data : list Z) (rest : list (list Z)) (w : world) :
  exec (cec_task_loop env (data :: rest)) w =
  exec (cec_task_loop env rest) (exec (cec_task_iteration env data) w).
Proof.
  unfold exec. cbn [cec_task_loop]. unfold bind.
  destruct (cec_task_iteration env data w). reflexivity.
Qed.

(** What [dispatch] proves of its result holds of the iteration, as long as
    it holds of doing nothing. *)
Lemma iteration_from_dispatch (P : world -> Z * world -> Prop)
  (data : list Z) (w : world) :
  (forall n, P w (n, w)) ->
  ((1 < List.length data)%nat ->
   P w (dispatch env (received data) (initiator_of data)
          (destination_of data) 0 w)) ->
  exists n, P w (n, exec (cec_task_iteration env data) w).
Proof.
  intros Hidle Hdisp.
  destruct (Nat.lt_ge_cases 1 (List.length data)) as [H | H].
  - rewrite exec_iteration_long by exact H. unfold exec.
    specialize (Hdisp H).
    destruct (dispatch _ _ _ _ _ w) as [n w']. exists n. exact Hdisp.
  - unfold exec. rewrite iteration_short by exact H. exists 0. apply Hidle.
Qed.

Lemma dispatch_unaddressed (pld : list Z) (i d n : Z) (w : world) :
  d <> laddr w -> d <> 0x0f ->
  at_ pld 1 <> CEC_ID_ROUTING_CHANGE ->
  at_ pld 1 <> CEC_ID_ACTIVE_SOURCE ->
  at_ pld 1 <> CEC_ID_REQUEST_ACTIVE_SOURCE ->
  at_ pld 1 <> CEC_ID_SET_STREAM_PATH ->
  leaves_alone w (dispatch env pld i d n w).
Proof.
  intros Hd Hb H1 H2 H3 H4.
  each_case ltac:(decode_tests; try contradiction;
                  branches; decode_tests; try contradiction;
                  unfold leaves_alone; same_world w).
Qed.

(** X1. A frame that is addressed neither to [laddr] nor to everybody, and
    whose opcode is not one of the four that are handled whatever the
    address, changes nothing and is answered by nothing. *)
Theorem unaddressed_frame_ignored (w : world) (data : list Z) :
  destination_of data <> laddr w ->
  destination_of data <> 0x0f ->
  at_ data 1 <> CEC_ID_ROUTING_CHANGE ->
  at_ data 1 <> CEC_ID_ACTIVE_SOURCE ->
  at_ data 1 <> CEC_ID_REQUEST_ACTIVE_SOURCE ->
  at_ data 1 <> CEC_ID_SET_STREAM_PATH ->
  exec (cec_task_iteration env data) w = w.
Proof.
  intros Hd Hb H1 H2 H3 H4.
  destruct (iteration_from_dispatch leaves_alone data w) as [n H].
  - intros n. reflexivity.
  - intros Hlen. apply dispatch_unaddressed; try assumption;
      rewrite received_at by lia; assumption.
  - exact H.
Qed.

(** X2. Eleven opcodes are accepted in silence, whoever they are addressed
    to: nothing changes and nothing is sent, not even a FEATURE_ABORT. *)
Theorem silently_accepted (w : world) (data : list Z) :
  In (at_ data 1)
     [CEC_ID_FEATURE_ABORT; CEC_ID_IMAGE_VIEW_ON; CEC_ID_TEXT_VIEW_ON;
      CEC_ID_SYSTEM_AUDIO_MODE_STATUS; CEC_ID_MENU_STATUS;
      CEC_ID_REPORT_POWER_STATUS; CEC_ID_GET_MENU_LANGUAGE;
      CEC_ID_INACTIVE_SOURCE; CEC_ID_CEC_VERSION; CEC_ID_SET_OSD_NAME;
      CEC_ID_VENDOR_COMMAND_WITH_ID] ->
  exec (cec_task_iteration env data) w = w.
Proof.
  intros Hop.
  destruct (iteration_from_dispatch leaves_alone data w) as [n H].
  - intros n. reflexivity.
  - intros Hlen. rewrite <- (received_at data 1) in Hop by lia.
    cbn [In] in Hop.
    repeat (destruct Hop as [Hop | Hop];
            [ symmetry in Hop; pick_case Hop; reflexivity | ]).
    contradiction.
  - exact H.
Qed.

End Footprints.

(** ** What allocation does to the world *)

Section Probing.

Variable env : bus.

Lemma skipn_app_exact {A : Type} (a b : list A) :
  skipn (List.length a) (a ++ b) = b.
Proof. induction a as [ | x a IH ]; [ reflexivity | exact IH ]. Qed.

Lemma skipn_exact {A : Type} (a : list A) : skipn (List.length a) a = [].
Proof. apply skipn_all. Qed.

Lemma pings_of_length (l : Z) (t : cec_device_type) (i k : nat) :
  List.length (pings_of l t i k) = k.
Proof. unfold pings_of. rewrite length_map, length_seq. reflexivity. Qed.

(** The loop probes [k] candidates, at least one when it runs at all and at
    most all of them, and returns the last one it probed. *)
Lemma allocate_loop_probes (t : cec_device_type) :
  forall (n i : nat) (a : Z) (w : world),
  exists k : nat,
    (k <= n)%nat /\ (0 < n -> 0 < k)%nat
    /\ allocate_loop env t n i a w =
       (match k with O => a | S k' => laddress_at t (i + k') end,
        with_wire w (wire w ++ pings_of (laddr w) t i k)).
Proof.
  induction n as [ | n IH ]; intros i a w.
  - exists O. split; [ lia | split; [ lia | ] ].
    cbn. rewrite app_nil_r, with_wire_same. reflexivity.
  - cbn [allocate_loop]. unfold bind. rewrite cec_ping_run.
    destruct (acks env (List.length (wire w))); cbn [negb].
    + destruct (IH (S i) (laddress_at t i)
                  (with_wire w
                     (wire w ++ [ping_of (laddr w) (laddress_at t i)])))
        as (k & Hk & _ & E).
      exists (S k). split; [ lia | split; [ lia | ] ].
      rewrite E. cbn [with_wire laddr wire]. rewrite <- app_assoc.
      destruct k as [ | k ].
      * rewrite Nat.add_0_r. reflexivity.
      * replace (S i + k)%nat with (i + S k)%nat by lia. reflexivity.
    + exists 1%nat. split; [ lia | split; [ lia | ] ].
      rewrite Nat.add_0_r. reflexivity.
Qed.

(** A logical address that is configured is returned as it is, and the bus
    is not touched. *)
Lemma allocate_configured (c : cec_config_t) (w : world) :
  logical_address c <> 0x00 -> logical_address c <> 0x0f ->
  allocate_logical_address env c w = (logical_address c, w).
Proof.
  intros H0 Hf. unfold allocate_logical_address.
  apply Z.eqb_neq in H0, Hf. rewrite H0, Hf. reflexivity.
Qed.

(** Whatever the configuration and the bus, allocation changes the world
    only by the PINGs it sends, at most one per slot of the row. *)
Lemma allocate_logical_address_probes (c : cec_config_t) (w : world) :
  exists (r : Z) (k : nat),
    (k <= NUM_LADDRESS)%nat
    /\ allocate_logical_address env c w =
       (r, with_wire w (wire w ++ pings_of (laddr w) (device_type c) O k)).
Proof.
  unfold allocate_logical_address.
  destruct (negb (logical_address c =? 0) && negb (logical_address c =? 15)).
  - exists (logical_address c), O. split; [ lia | ].
    unfold ret. cbn. rewrite app_nil_r, with_wire_same. reflexivity.
  - destruct (allocate_loop_probes (device_type c) NUM_LADDRESS O 0 w)
      as (k & Hk & _ & E).
    eexists. exists k. split; [ exact Hk | exact E ].
Qed.

(** X3. When the logical address is allocated by probing, between one and
    four PINGs are sent, one per candidate of the row in order; the address
    returned is the last candidate probed, and nothing else changes. *)
Theorem allocation_returns_last_probed (c : cec_config_t) (w : world) :
  logical_address c = 0x00 \/ logical_address c = 0x0f ->
  exists k : nat,
    (1 <= k <= NUM_LADDRESS)%nat
    /\ allocate_logical_address env c w =
       (laddress_at (device_type c) (k - 1),
        with_wire w (wire w ++ pings_of (laddr w) (device_type c) O k)).
Proof.
  intros Hauto. unfold allocate_logical_address.
  assert (E : negb (logical_address c =? 0) && negb (logical_address c =? 15)
              = false).
  { destruct Hauto as [-> | ->]; reflexivity. }
  rewrite E.
  destruct (allocate_loop_probes (device_type c) NUM_LADDRESS O 0 w)
    as (k & Hk & Hpos & Eloop).
  exists k. unfold NUM_LADDRESS in *.
  assert (0 < k)%nat by (apply Hpos; lia).
  split; [ lia | ].
  rewrite Eloop. destruct k as [ | k ]; [ lia | ].
  cbn [Nat.add]. replace (S k - 1)%nat with k by lia. reflexivity.
Qed.

End Probing.

Lemma allocation_returns_last_probed_witness :
  exists k : nat,
    (1 <= k <= NUM_LADDRESS)%nat
    /\ allocate_logical_address bus_first_taken cfg_playback_auto
         (initial_world cfg_playback_auto) =
       (laddress_at PlaybackDevice (k - 1),
        with_wire (initial_world cfg_playback_auto)
          (wire (initial_world cfg_playback_auto)
           ++ pings_of 0x0f PlaybackDevice O k)).
Proof.
  apply (allocation_returns_last_probed bus_first_taken cfg_playback_auto
           (initial_world cfg_playback_auto)).
  left. reflexivity.
Defined.

(** ** What the handlers touch *)

Section Touched.

Variable env : bus.

Ltac probe :=
  match goal with
  | |- context [allocate_logical_address env ?c ?w1] =>
      let r := fresh "r" in
      let k := fresh "k" in
      let Hk := fresh "Hk" in
      let E := fresh "E" in
      destruct (allocate_logical_address_probes env c w1)
        as (r & k & Hk & E);
      rewrite E
  end.

Ltac since :=
  unfold sent_since; cbn [snd wire]; rewrite <- ?app_assoc;
  first [ rewrite skipn_exact; constructor
        | rewrite skipn_app_exact;
          repeat (constructor; [ cbn; lia | ]); constructor ].

Lemma dispatch_keeps_addresses (pld : list Z) (i d n : Z) (w : world) :
  at_ pld 1 <> CEC_ID_ROUTING_CHANGE ->
  at_ pld 1 <> CEC_ID_REPORT_PHYSICAL_ADDRESS ->
  keeps_addresses w (dispatch env pld i d n w).
Proof.
  intros H1 H2.
  each_case ltac:(decode_tests; try contradiction;
                  branches; unfold keeps_addresses;
                  cbn [snd config laddr paddr ddc_reads];
                  repeat (split; [ reflexivity | ]); since).
Qed.

Lemma dispatch_keeps_keys (pld : list Z) (i d n : Z) (w : world) :
  at_ pld 1 <> CEC_ID_USER_CONTROL_PRESSED ->
  at_ pld 1 <> CEC_ID_USER_CONTROL_RELEASED ->
  keeps_keys w (dispatch env pld i d n w).
Proof.
  intros H1 H2.
  each_case ltac:(decode_tests; try contradiction;
                  unfold get_physical_address; branches;
                  try (probe; branches);
                  unfold keeps_keys; reflexivity).
Qed.

(** X4. Only ROUTING_CHANGE and REPORT_PHYSICAL_ADDRESS refresh the
    addresses.  Any other frame leaves the configuration, [laddr] and
    [paddr] as they were, reads no EDID and sends no PING. *)
Theorem addresses_refreshed_by_two_opcodes (w : world) (data : list Z) :
  at_ data 1 <> CEC_ID_ROUTING_CHANGE ->
  at_ data 1 <> CEC_ID_REPORT_PHYSICAL_ADDRESS ->
  let w' := exec (cec_task_iteration env data) w in
  config w' = config w
  /\ laddr w' = laddr w
  /\ paddr w' = paddr w
  /\ ddc_reads w' = ddc_reads w
  /\ Forall (fun e => (1 < List.length (snd e))%nat) (sent_since w w').
Proof.
  intros H1 H2 w'. subst w'.
  destruct (iteration_from_dispatch env keeps_addresses data w) as [n H].
  - intros n. unfold keeps_addresses. cbn [snd].
    repeat (split; [ reflexivity | ]).
    unfold sent_since. rewrite skipn_exact. constructor.
  - intros Hlen. apply dispatch_keeps_addresses;
      rewrite received_at by lia; assumption.
  - exact H.
Qed.

(** X5. Only USER_CONTROL_PRESSED and USER_CONTROL_RELEASED reach the HID
    queue.  Any other frame leaves the queue as it was. *)
Theorem keys_come_from_user_control (w : world) (data : list Z) :
  at_ data 1 <> CEC_ID_USER_CONTROL_PRESSED ->
  at_ data 1 <> CEC_ID_USER_CONTROL_RELEASED ->
  hid_queue (exec (cec_task_iteration env data) w) = hid_queue w.
Proof.
  intros H1 H2.
  destruct (iteration_from_dispatch env keeps_keys data w) as [n H].
  - intros n. reflexivity.
  - intros Hlen. apply dispatch_keeps_keys;
      rewrite received_at by lia; assumption.
  - exact H.
Qed.

End Touched.

(** ** What an iteration sends *)

Section Output.

Variable env : bus.

Ltac probe :=
  match goal with
  | |- context [allocate_logical_address env ?c ?w1] =>
      let r := fresh "r" in
      let k := fresh "k" in
      let Hk := fresh "Hk" in
      let E := fresh "E" in
      destruct (allocate_logical_address_probes env c w1)
        as (r & k & Hk & E);
      rewrite E
  end.

Ltac give_output :=
  unfold iteration_output; cbn [snd wire laddr config];
  first [ match goal with
          | Hk : (?k <= NUM_LADDRESS)%nat |- _ => exists k
          end
        | exists O ];
  first [ exists (@nil (Z * list Z));
          split; [ cbn [pings_of seq map app]; rewrite ?app_nil_r;
                   reflexivity | ]
        | eexists; split; [ rewrite <- ?app_assoc; reflexivity | ] ];
  (split; [ first [ assumption | unfold NUM_LADDRESS; lia ] | ]);
  cbn [List.length app];
  (split; [ lia | ]);
  repeat (apply Forall_cons;
          [ unfold reply_to; cbn [snd at_ nth List.length];
            split; [ lia | rewrite header0_low_nibble by lia; auto ] | ]);
  apply Forall_nil.

Lemma dispatch_output (pld : list Z) (i d n : Z) (w : world) :
  0 <= i < 16 ->
  iteration_output (device_type (config w)) (laddr w) i w
    (dispatch env pld i d n w).
Proof.
  intros Hi.
  each_case ltac:(unfold get_physical_address; branches;
                  try (probe; branches); give_output).
Qed.

(** X6. For one inbound frame the responder hands to the line driver at most
    four PINGs, all of candidates of its device-type row, followed by at
    most three replies; every reply has two to ten octets and is addressed
    to the initiator of the inbound frame, to the TV or to everybody. *)
Theorem replies_bounded_and_addressed (w : world) (data : list Z) :
  exists (k : nat) (replies : list (Z * list Z)),
    wire (exec (cec_task_iteration env data) w) =
    wire w ++ pings_of (laddr w) (device_type (config w)) O k ++ replies
    /\ (k <= NUM_LADDRESS)%nat
    /\ (List.length replies <= 3)%nat
    /\ Forall (reply_to (initiator_of data)) replies.
Proof.
  destruct (iteration_from_dispatch env
              (fun w r => iteration_output (device_type (config w)) (laddr w)
                            (initiator_of data) w r) data w) as [n H].
  - intros n. exists O, []. cbn. rewrite app_nil_r.
    repeat split; try lia. constructor.
  - intros _. apply dispatch_output. apply nibble_range.
  - exact H.
Qed.

End Output.

(** ** A configured logical address *)

Section FixedAddress.

Variable env : bus.
Variable c : cec_config_t.
Hypothesis configured_0 : logical_address c <> 0x00.
Hypothesis configured_f : logical_address c <> 0x0f.

Ltac close_fixed Hinv :=
  let Hc := fresh "Hc" in
  let Hl := fresh "Hl" in
  let Hw := fresh "Hw" in
  destruct Hinv as (Hc & Hl & Hw);
  unfold fixed_address_inv; cbn [snd config laddr wire];
  split; [ assumption
         | split; [ first [ assumption | rewrite Hc; reflexivity ]
                  | rewrite ?Forall_app; repeat split; try assumption;
                    repeat (apply Forall_cons; [ cbn; lia | ]);
                    try apply Forall_nil ] ].

Ltac configured Hinv :=
  match goal with
  | |- context [allocate_logical_address env ?c' ?w1] =>
      rewrite (allocate_configured env c' w1)
        by (rewrite (proj1 Hinv); assumption)
  end.

Lemma dispatch_fixed (pld : list Z) (i d n : Z) (w : world) :
  fixed_address_inv c w -> holds_fixed c (dispatch env pld i d n w).
Proof.
  intros Hinv.
  each_case ltac:(unfold get_physical_address; branches;
                  try (configured Hinv; branches);
                  unfold holds_fixed; close_fixed Hinv).
Qed.

Lemma loop_fixed (inbound : list (list Z)) :
  forall w, fixed_address_inv c w ->
            fixed_address_inv c (exec (cec_task_loop env inbound) w).
Proof.
  induction inbound as [ | data rest IH ]; intros w Hinv.
  - exact Hinv.
  - rewrite exec_loop_cons. apply IH.
    destruct (iteration_from_dispatch env
                (fun w r => fixed_address_inv c (snd r)) data w) as [n H].
    + intros n. exact Hinv.
    + intros _. apply dispatch_fixed. exact Hinv.
    + exact H.
Qed.

(** X7. With a configured logical address (neither [0x00] nor [0x0F]) the
    responder takes that address at startup and holds it for the whole run,
    whatever arrives, and never sends a PING. *)
Theorem configured_address_held (inbound : list (list Z)) :
  let w' := exec (cec_task env inbound) (initial_world c) in
  laddr w' = logical_address c
  /\ config w' = c
  /\ Forall (fun e => (1 < List.length (snd e))%nat) (wire w').
Proof.
  assert (Hinv : fixed_address_inv c
                   (exec (cec_task env inbound) (initial_world c))).
  { unfold exec, cec_task, bind.
    assert (H0 : fixed_address_inv c
                   (snd (cec_task_startup env (initial_world c)))).
    { unfold cec_task_startup, get_physical_address. branches.
      - rewrite (allocate_configured env c) by assumption. branches.
        unfold fixed_address_inv. cbn. repeat split. constructor.
      - rewrite (allocate_configured env c) by assumption. branches.
        unfold fixed_address_inv. cbn. repeat split. constructor. }
    destruct (cec_task_startup env (initial_world c)) as [u w0].
    apply loop_fixed. exact H0. }
  destruct Hinv as (Hc & Hl & Hw). cbv zeta. auto.
Qed.

End FixedAddress.

Lemma configured_address_held_witness :
  let w' := exec (cec_task bus_crowded
                    [[0x0F; 0x80; 0x10; 0x00; 0x30; 0x00]; [0x0F; 0x85]])
              (initial_world cfg_playback_4) in
  laddr w' = 4
  /\ config w' = cfg_playback_4
  /\ Forall (fun e => (1 < List.length (snd e))%nat) (wire w').
Proof.
  apply (configured_address_held bus_crowded cfg_playback_4);
    discriminate.
Defined.

(** ** Sequences of frames *)

(** One frame whose opcode is known, run through the iteration down to the
    body of its [case]. *)
Ltac enter Hlen Hop :=
  rewrite exec_iteration_long by exact Hlen;
  unfold exec; rewrite <- (received_at _ 1) in Hop by lia;
  pick_case Hop; rewrite ?received_at by lia.

Section Sequences.

Variable env : bus.

Lemma exec_loop_nil (w : world) : exec (cec_task_loop env []) w = w.
Proof. reflexivity. Qed.

(** A SET_STREAM_PATH to our physical address. *)
Lemma set_stream_path_effect (w : world) (data : list Z) :
  (1 < List.length data)%nat ->
  at_ data 1 = CEC_ID_SET_STREAM_PATH ->
  Z.lor (Z.shiftl (at_ data 2) 8) (at_ data 3) = paddr w ->
  let w' := exec (cec_task_iteration env data) w in
  laddr w' = laddr w /\ paddr w' = paddr w /\ active_addr w' = paddr w
  /\ menu_state w' = true
  /\ wire w' = wire w ++
       [(laddr w, [u8 (HEADER0 (laddr w) 0x00); CEC_ID_IMAGE_VIEW_ON]);
        (laddr w, [u8 (HEADER0 (laddr w) 0x0f); CEC_ID_ACTIVE_SOURCE;
                   Z.land (Z.shiftr (paddr w) 8) 0x0ff;
                   Z.land (Z.shiftr (paddr w) 0) 0x0ff]);
        (laddr w, [u8 (HEADER0 (laddr w) 0x00); CEC_ID_MENU_STATUS;
                   CEC_MENU_ACTIVATE])].
Proof.
  intros Hlen Hop Hoperand w'. subst w'. enter Hlen Hop.
  run. rewrite Hoperand, Z.eqb_refl. run.
  repeat (split; [ reflexivity | ]). rewrite <- !app_assoc. reflexivity.
Qed.

(** A STANDBY that is addressed to us or to everybody. *)
Lemma standby_effect (w : world) (data : list Z) :
  (1 < List.length data)%nat ->
  at_ data 1 = CEC_ID_STANDBY ->
  destination_of data = laddr w \/ destination_of data = 0x0f ->
  let w' := exec (cec_task_iteration env data) w in
  laddr w' = laddr w /\ paddr w' = paddr w /\ active_addr w' = 0x0000
  /\ wire w' = wire w.
Proof.
  intros Hlen Hop Hd w'. subst w'. enter Hlen Hop. run.
  assert (E : (destination_of data =? laddr w)
              || (destination_of data =? 15) = true).
  { apply orb_true_iff. destruct Hd as [Hd | Hd]; [ left | right ];
      apply Z.eqb_eq; exact Hd. }
  rewrite E. run. auto.
Qed.

(** The answer to a GIVE_DEVICE_POWER_STATUS that is addressed to us. *)
Lemma power_status_reply (w : world) (data : list Z) :
  (1 < List.length data)%nat ->
  at_ data 1 = CEC_ID_GIVE_DEVICE_POWER_STATUS ->
  destination_of data = laddr w ->
  wire (exec (cec_task_iteration env data) w) =
  wire w ++
    [(laddr w, [u8 (HEADER0 (laddr w) (initiator_of data));
                CEC_ID_REPORT_POWER_STATUS;
                Z_of_bool (negb (active_addr w =? paddr w))])].
Proof.
  intros Hlen Hop Hd. enter Hlen Hop. run.
  rewrite Hd, Z.eqb_refl. run. reflexivity.
Qed.

(** X8. Once a SET_STREAM_PATH has selected the responder, it answers a
    GIVE_DEVICE_POWER_STATUS with power status [0x00] (on). *)
Theorem power_status_on_after_selection (w : world) (sel req : list Z) :
  (1 < List.length sel)%nat ->
  at_ sel 1 = CEC_ID_SET_STREAM_PATH ->
  Z.lor (Z.shiftl (at_ sel 2) 8) (at_ sel 3) = paddr w ->
  (1 < List.length req)%nat ->
  at_ req 1 = CEC_ID_GIVE_DEVICE_POWER_STATUS ->
  destination_of req = laddr w ->
  sent_since (exec (cec_task_iteration env sel) w)
    (exec (cec_task_loop env [sel; req]) w) =
  [(laddr w, [u8 (HEADER0 (laddr w) (initiator_of req));
              CEC_ID_REPORT_POWER_STATUS; 0x00])].
Proof.
  intros Hlen Hop Hoperand Hlen' Hop' Hd.
  rewrite !exec_loop_cons, exec_loop_nil.
  destruct (set_stream_path_effect w sel Hlen Hop Hoperand)
    as (Hl & Hp & Ha & _ & _).
  unfold sent_since.
  rewrite (power_status_reply (exec (cec_task_iteration env sel) w) req)
    by (try assumption; rewrite Hl; assumption).
  rewrite skipn_app_exact, Hl, Ha, Hp, Z.eqb_refl. reflexivity.
Qed.

(** X9. After a STANDBY the responder answers a GIVE_DEVICE_POWER_STATUS
    with power status [0x01] (standby), except when its physical address is
    [0x0000], the value STANDBY resets the active address to: then the answer
    is [0x00] (on). *)
Theorem power_status_after_standby (w : world) (off req : list Z) :
  (1 < List.length off)%nat ->
  at_ off 1 = CEC_ID_STANDBY ->
  destination_of off = laddr w \/ destination_of off = 0x0f ->
  (1 < List.length req)%nat ->
  at_ req 1 = CEC_ID_GIVE_DEVICE_POWER_STATUS ->
  destination_of req = laddr w ->
  wire (exec (cec_task_loop env [off; req]) w) =
  wire w ++
    [(laddr w, [u8 (HEADER0 (laddr w) (initiator_of req));
                CEC_ID_REPORT_POWER_STATUS;
                if paddr w =? 0x0000 then 0x00 else 0x01])].
Proof.
  intros Hlen Hop Hd Hlen' Hop' Hd'.
  rewrite !exec_loop_cons, exec_loop_nil.
  destruct (standby_effect w off Hlen Hop Hd) as (Hl & Hp & Ha & Hw).
  rewrite (power_status_reply (exec (cec_task_iteration env off) w) req)
    by (try assumption; rewrite Hl; assumption).
  rewrite Hl, Ha, Hp, Hw. rewrite (Z.eqb_sym 0).
  destruct (paddr w =? 0); reflexivity.
Qed.

End Sequences.

Lemma power_status_on_after_selection_witness :
  sent_since
    (exec (cec_task_iteration bus_silent [0x0F; 0x86; 0x30; 0x00]) w_scenario)
    (exec (cec_task_loop bus_silent [[0x0F; 0x86; 0x30; 0x00]; [0x04; 0x8F]])
       w_scenario)
  = [(4, [0x40; 0x90; 0x00])].
Proof.
  apply (power_status_on_after_selection bus_silent w_scenario
           [0x0F; 0x86; 0x30; 0x00] [0x04; 0x8F]);
    try reflexivity; simpl; lia.
Defined.

Lemma power_status_after_standby_witness :
  wire (exec (cec_task_loop bus_silent [[0x0F; 0x36]; [0x04; 0x8F]])
          w_selected)
  = wire w_selected ++ [(4, [0x40; 0x90; 0x01])].
Proof.
  apply (power_status_after_standby bus_silent w_selected
           [0x0F; 0x36] [0x04; 0x8F]);
    try reflexivity; try (simpl; lia).
  right. reflexivity.
Defined.

Section MoreSequences.

Variable env : bus.

Lemma set_system_audio_mode_effect (w : world) (data : list Z) :
  (1 < List.length data)%nat ->
  at_ data 1 = CEC_ID_SET_SYSTEM_AUDIO_MODE ->
  destination_of data = laddr w \/ destination_of data = 0x0f ->
  let w' := exec (cec_task_iteration env data) w in
  laddr w' = laddr w /\ audio_status w' = (at_ data 2 =? 1)
  /\ wire w' = wire w.
Proof.
  intros Hlen Hop Hd w'. subst w'. enter Hlen Hop. run.
  assert (E : (destination_of data =? laddr w)
              || (destination_of data =? 15) = true).
  { apply orb_true_iff. destruct Hd as [Hd | Hd]; [ left | right ];
      apply Z.eqb_eq; exact Hd. }
  rewrite E. run. auto.
Qed.

Lemma system_audio_mode_status_reply (w : world) (data : list Z) :
  (1 < List.length data)%nat ->
  at_ data 1 = CEC_ID_GIVE_SYSTEM_AUDIO_MODE_STATUS ->
  destination_of data = laddr w ->
  wire (exec (cec_task_iteration env data) w) =
  wire w ++
    [(laddr w, [u8 (HEADER0 (laddr w) (initiator_of data));
                CEC_ID_SYSTEM_AUDIO_MODE_STATUS;
                Z_of_bool (audio_status w)])].
Proof.
  intros Hlen Hop Hd. enter Hlen Hop. run.
  rewrite Hd, Z.eqb_refl. run. reflexivity.
Qed.

(** X10. The System Audio Mode that a SET_SYSTEM_AUDIO_MODE stores is the one
    a GIVE_SYSTEM_AUDIO_MODE_STATUS reads back: the status reported is 1
    when the operand stored was exactly 1, and 0 for every other operand. *)
Theorem audio_mode_set_then_reported (w : world) (set req : list Z) :
  (1 < List.length set)%nat ->
  at_ set 1 = CEC_ID_SET_SYSTEM_AUDIO_MODE ->
  destination_of set = laddr w \/ destination_of set = 0x0f ->
  (1 < List.length req)%nat ->
  at_ req 1 = CEC_ID_GIVE_SYSTEM_AUDIO_MODE_STATUS ->
  destination_of req = laddr w ->
  wire (exec (cec_task_loop env [set; req]) w) =
  wire w ++
    [(laddr w, [u8 (HEADER0 (laddr w) (initiator_of req));
                CEC_ID_SYSTEM_AUDIO_MODE_STATUS;
                if at_ set 2 =? 1 then 1 else 0])].
Proof.
  intros Hlen Hop Hd Hlen' Hop' Hd'.
  rewrite !exec_loop_cons, exec_loop_nil.
  destruct (set_system_audio_mode_effect w set Hlen Hop Hd)
    as (Hl & Ha & Hw).
  rewrite (system_audio_mode_status_reply
             (exec (cec_task_iteration env set) w) req)
    by (try assumption; rewrite Hl; assumption).
  rewrite Hl, Ha, Hw. reflexivity.
Qed.

(** X11. A MENU_REQUEST addressed to us sets the menu state on operand 0
    (activate), clears it on operand 1 (deactivate) and keeps it on every
    other operand, and the MENU_STATUS sent back to the initiator carries
    the state that results: 0 when active, 1 when not.  So the reply to an
    activate or a deactivate request echoes the operand of the request. *)
Theorem menu_request_reply (w : world) (data : list Z) :
  (1 < List.length data)%nat ->
  at_ data 1 = CEC_ID_MENU_REQUEST ->
  destination_of data = laddr w ->
  let w' := exec (cec_task_iteration env data) w in
  menu_state w' =
    (if at_ data 2 =? 0 then true
     else if at_ data 2 =? 1 then false else menu_state w)
  /\ wire w' = wire w ++
       [(laddr w, [u8 (HEADER0 (laddr w) (initiator_of data));
                   CEC_ID_MENU_STATUS;
                   if menu_state w' then 0 else 1])]
  /\ (at_ data 2 = 0 \/ at_ data 2 = 1 ->
      wire w' = wire w ++
        [(laddr w, [u8 (HEADER0 (laddr w) (initiator_of data));
                    CEC_ID_MENU_STATUS; at_ data 2])]).
Proof.
  intros Hlen Hop Hd w'.
  assert (E : w' = exec (cec_task_iteration env data) w) by reflexivity.
  clearbody w'. subst w'. enter Hlen Hop. run.
  rewrite Hd, Z.eqb_refl. unfold CEC_MENU_ACTIVATE, CEC_MENU_DEACTIVATE,
    CEC_MENU_QUERY.
  destruct (at_ data 2 =? 0) eqn:E0; [ | destruct (at_ data 2 =? 1) eqn:E1;
    [ | destruct (at_ data 2 =? 2) eqn:E2 ] ]; run;
    (split; [ reflexivity | split ]);
    try (destruct (menu_state w); reflexivity);
    intros H;
    first [ apply Z.eqb_eq in E0; rewrite E0; reflexivity
          | apply Z.eqb_eq in E1; rewrite E1; reflexivity
          | exfalso; apply Z.eqb_neq in E0, E1; lia ].
Qed.

Lemma active_source_effect (w : world) (data : list Z) :
  (1 < List.length data)%nat ->
  at_ data 1 = CEC_ID_ACTIVE_SOURCE ->
  let w' := exec (cec_task_iteration env data) w in
  laddr w' = laddr w /\ paddr w' = paddr w
  /\ active_addr w' = u16 (Z.lor (Z.shiftl (at_ data 2) 8) (at_ data 3))
  /\ wire w' = wire w.
Proof.
  intros Hlen Hop w'. subst w'. enter Hlen Hop. run. auto.
Qed.

Lemma request_active_source_reply (w : world) (data : list Z) :
  (1 < List.length data)%nat ->
  at_ data 1 = CEC_ID_REQUEST_ACTIVE_SOURCE ->
  wire (exec (cec_task_iteration env data) w) =
  wire w ++
    (if paddr w =? active_addr w
     then [(laddr w, [u8 (HEADER0 (laddr w) 0x00); CEC_ID_IMAGE_VIEW_ON]);
           (laddr w, [u8 (HEADER0 (laddr w) 0x0f); CEC_ID_ACTIVE_SOURCE;
                      Z.land (Z.shiftr (paddr w) 8) 0x0ff;
                      Z.land (Z.shiftr (paddr w) 0) 0x0ff])]
     else []).
Proof.
  intros Hlen Hop. enter Hlen Hop. run.
  change (2 <? u8 (0 + 1)) with false.
  destruct (paddr w =? active_addr w); cbn [orb]; run.
  - rewrite <- ?app_assoc. reflexivity.
  - rewrite ?app_nil_r. reflexivity.
Qed.

(** X12. After an ACTIVE_SOURCE, from whomever and to whomever, the responder
    answers a REQUEST_ACTIVE_SOURCE exactly when the address announced was
    its own physical address: then with IMAGE_VIEW_ON to the TV and a
    broadcast ACTIVE_SOURCE, else with nothing. *)
Theorem active_source_then_request (w : world) (src req : list Z) :
  (1 < List.length src)%nat ->
  at_ src 1 = CEC_ID_ACTIVE_SOURCE ->
  (1 < List.length req)%nat ->
  at_ req 1 = CEC_ID_REQUEST_ACTIVE_SOURCE ->
  wire (exec (cec_task_loop env [src; req]) w) =
  wire w ++
    (if paddr w =? u16 (Z.lor (Z.shiftl (at_ src 2) 8) (at_ src 3))
     then [(laddr w, [u8 (HEADER0 (laddr w) 0x00); CEC_ID_IMAGE_VIEW_ON]);
           (laddr w, [u8 (HEADER0 (laddr w) 0x0f); CEC_ID_ACTIVE_SOURCE;
                      Z.land (Z.shiftr (paddr w) 8) 0x0ff;
                      Z.land (Z.shiftr (paddr w) 0) 0x0ff])]
     else []).
Proof.
  intros Hlen Hop Hlen' Hop'.
  rewrite !exec_loop_cons, exec_loop_nil.
  destruct (active_source_effect w src Hlen Hop) as (Hl & Hp & Ha & Hw).
  rewrite (request_active_source_reply
             (exec (cec_task_iteration env src) w) req) by assumption.
  rewrite Hl, Hp, Ha, Hw. reflexivity.
Qed.

Lemma user_control_pressed_effect (w : world) (data : list Z) :
  (1 < List.length data)%nat ->
  at_ data 1 = CEC_ID_USER_CONTROL_PRESSED ->
  destination_of data = laddr w ->
  let w' := exec (cec_task_iteration env data) w in
  laddr w' = laddr w /\ wire w' = wire w
  /\ blinks w' = blinks w ++ [Blink_set_GREEN_ON]
  /\ hid_queue w' =
     hid_queue w ++
       match name (keymap (config w) (at_ data 2)) with
       | Some _ => [key (keymap (config w) (at_ data 2))]
       | None => []
       end.
Proof.
  intros Hlen Hop Hd w'. subst w'. enter Hlen Hop. run.
  rewrite Hd, Z.eqb_refl. run.
  destruct (name (keymap (config w) (at_ data 2))); run.
  - auto.
  - rewrite app_nil_r. auto.
Qed.

Lemma user_control_released_effect (w : world) (data : list Z) :
  (1 < List.length data)%nat ->
  at_ data 1 = CEC_ID_USER_CONTROL_RELEASED ->
  destination_of data = laddr w ->
  let w' := exec (cec_task_iteration env data) w in
  wire w' = wire w
  /\ blinks w' = blinks w ++ [Blink_set_OFF]
  /\ hid_queue w' = hid_queue w ++ [HID_KEY_NONE].
Proof.
  intros Hlen Hop Hd w'. subst w'. enter Hlen Hop. run.
  rewrite Hd, Z.eqb_refl. run. auto.
Qed.

(** X13. A key press addressed to us followed by the release offers to the
    HID queue the code the keymap gives for the operand and then
    [HID_KEY_NONE], in this order; when the keymap has no entry for the
    operand only [HID_KEY_NONE] is offered.  The blinker goes on and off,
    and no CEC frame is sent. *)
Theorem key_press_then_release (w : world) (press release : list Z) :
  (1 < List.length press)%nat ->
  at_ press 1 = CEC_ID_USER_CONTROL_PRESSED ->
  destination_of press = laddr w ->
  (1 < List.length release)%nat ->
  at_ release 1 = CEC_ID_USER_CONTROL_RELEASED ->
  destination_of release = laddr w ->
  let w' := exec (cec_task_loop env [press; release]) w in
  hid_queue w' =
    hid_queue w ++
      match name (keymap (config w) (at_ press 2)) with
      | Some _ => [key (keymap (config w) (at_ press 2)); HID_KEY_NONE]
      | None => [HID_KEY_NONE]
      end
  /\ blinks w' = blinks w ++ [Blink_set_GREEN_ON; Blink_set_OFF]
  /\ wire w' = wire w.
Proof.
  intros Hlen Hop Hd Hlen' Hop' Hd' w'. subst w'.
  rewrite !exec_loop_cons, exec_loop_nil.
  destruct (user_control_pressed_effect w press Hlen Hop Hd)
    as (Hl & Hw & Hb & Hq).
  destruct (user_control_released_effect
              (exec (cec_task_iteration env press) w) release Hlen' Hop')
    as (Hw' & Hb' & Hq'); [ rewrite Hl; exact Hd' | ].
  rewrite Hw', Hb', Hq', Hw, Hb, Hq, <- !app_assoc.
  destruct (name (keymap (config w) (at_ press 2))); auto.
Qed.

End MoreSequences.

(** ** Frames shorter than their operands, dispatched *)

Lemma zero_padded_length (data : list Z) :
  (List.length data <= 16)%nat -> List.length (zero_padded data) = 16%nat.
Proof.
  intros H. unfold zero_padded. rewrite length_app, repeat_length. lia.
Qed.

(** A frame of at most sixteen octets is received as itself, followed by
    the zeros the loop body put in the buffer. *)
Lemma received_zero_padded (data : list Z) :
  (List.length data <= 16)%nat -> received data = zero_padded data.
Proof.
  intros H. apply (nth_ext _ _ 0 0).
  - rewrite received_length, zero_padded_length by exact H. reflexivity.
  - intros n Hn. rewrite received_length in Hn.
    change (at_ (received data) n = at_ (zero_padded data) n).
    rewrite received_at by exact Hn. rewrite zero_padded_at. reflexivity.
Qed.

Section ShortFrames.

Variable env : bus.

Ltac probe :=
  match goal with
  | |- context [allocate_logical_address env ?c ?w1] =>
      let r := fresh "r" in
      let k := fresh "k" in
      let Hk := fresh "Hk" in
      let E := fresh "E" in
      destruct (allocate_logical_address_probes env c w1)
        as (r & k & Hk & E);
      rewrite E
  end.

(** C3, as amended.  A frame of reported length 0 or 1 is not acted upon:
    the responder is left exactly as it was.  A frame of length 2 to 16 is
    dispatched on its opcode whatever its length: the [switch] runs on the
    frame with its missing operands filled with [0x00] up to the sixteen
    octets of the receive buffer, so that the iteration is the one of the
    zero-padded frame and every octet a handler reads at or beyond the
    reported length is [0x00].  So a ROUTING_CHANGE of length 2 sets
    [active_addr] to [0x0000], and a SET_SYSTEM_AUDIO_MODE of length 2,
    addressed to the responder or to everybody, sets [audio_status] to
    false. *)
Theorem short_frame_handled_as_zero_padded (w : world) (data : list Z) :
  ((List.length data <= 1)%nat -> exec (cec_task_iteration env data) w = w)
  /\ ((1 < List.length data <= 16)%nat ->
      cec_task_iteration env data w =
      (_ <- dispatch env (zero_padded data) (initiator_of data)
              (destination_of data) 0 ;; ret tt) w
      /\ cec_task_iteration env data w =
         cec_task_iteration env (zero_padded data) w
      /\ at_ (zero_padded data) 1 = at_ data 1
      /\ (forall i, (List.length data <= i)%nat ->
                    at_ (zero_padded data) i = 0))
  /\ (List.length data = 2%nat ->
      at_ data 1 = CEC_ID_ROUTING_CHANGE ->
      active_addr (exec (cec_task_iteration env data) w) = 0x0000)
  /\ (List.length data = 2%nat ->
      at_ data 1 = CEC_ID_SET_SYSTEM_AUDIO_MODE ->
      destination_of data = laddr w \/ destination_of data = 0x0f ->
      audio_status (exec (cec_task_iteration env data) w) = false).
Proof.
  split; [ | split; [ | split ] ].
  - intros H. unfold exec. rewrite iteration_short by exact H. reflexivity.
  - intros [H1 H2].
    assert (Hp : (1 < List.length (zero_padded data))%nat)
      by (rewrite zero_padded_length by exact H2; lia).
    split; [ | split; [ | split ] ].
    + rewrite iteration_long by exact H1.
      rewrite received_zero_padded by exact H2. reflexivity.
    + rewrite !iteration_long by assumption.
      unfold initiator_of, destination_of.
      rewrite (received_ext (zero_padded data) data)
        by (intros; apply zero_padded_at).
      rewrite zero_padded_at. reflexivity.
    + apply zero_padded_at.
    + intros i Hi. rewrite zero_padded_at. unfold at_.
      apply nth_overflow. exact Hi.
  - intros Hlen Hop.
    assert (Hlen' : (1 < List.length data)%nat) by lia.
    enter Hlen' Hop.
    assert (E4 : at_ data 4 = 0) by (apply nth_overflow; lia).
    assert (E5 : at_ data 5 = 0) by (apply nth_overflow; lia).
    rewrite E4, E5. unfold get_physical_address.
    branches; probe; branches; reflexivity.
  - intros Hlen Hop Hd.
    assert (Hlen' : (1 < List.length data)%nat) by lia.
    enter Hlen' Hop.
    assert (E2 : at_ data 2 = 0) by (apply nth_overflow; lia).
    rewrite E2. run.
    assert (E : (destination_of data =? laddr w)
                || (destination_of data =? 15) = true).
    { apply orb_true_iff. destruct Hd as [Hd | Hd]; [ left | right ];
        apply Z.eqb_eq; exact Hd. }
    rewrite E. reflexivity.
Qed.

End ShortFrames.

Lemma short_frame_handled_as_zero_padded_witness :
  exec (cec_task_iteration bus_silent [0x04]) w_scenario = w_scenario
  /\ cec_task_iteration bus_silent [0x0F; 0x80] w_selected =
     (_ <- dispatch bus_silent
             [0x0F; 0x80; 0; 0; 0; 0; 0; 0; 0; 0; 0; 0; 0; 0; 0; 0]
             0 0x0f 0 ;; ret tt) w_selected
  /\ active_addr w_selected = 0x3000
  /\ active_addr (exec (cec_task_iteration bus_silent [0x0F; 0x80])
                    w_selected) = 0x0000
  /\ audio_status w_audio_on = true
  /\ audio_status (exec (cec_task_iteration bus_silent [0x0F; 0x72])
                     w_audio_on) = false.
Proof.
  destruct (short_frame_handled_as_zero_padded bus_silent w_scenario [0x04])
    as (Hpoll & _).
  destruct (short_frame_handled_as_zero_padded bus_silent w_selected
              [0x0F; 0x80]) as (_ & Hpad & Hroute & _).
  destruct (short_frame_handled_as_zero_padded bus_silent w_audio_on
              [0x0F; 0x72]) as (_ & _ & _ & Haudio).
  split; [ apply Hpoll; simpl; lia | ].
  split; [ apply Hpad; simpl; lia | ].
  split; [ reflexivity | ].
  split; [ apply Hroute; reflexivity | ].
  split; [ reflexivity | ].
  apply Haudio; [ reflexivity | reflexivity | right; reflexivity ].
Defined.

(** * Further properties of the log channel *)

Module CecLogMore.
Import CecLog CecLogTask.

#[local] Open Scope string_scope.

Lemma append_length (a b : string) :
  String.length (a ++ b) = (String.length a + String.length b)%nat.
Proof.
  induction a as [ | c a IH ]; [ reflexivity | ].
  cbn [append String.length]. rewrite IH. reflexivity.
Qed.

Lemma substring_prefix_length (n : nat) (s : string) :
  String.length (substring 0 n s) = Nat.min n (String.length s).
Proof.
  destruct (Nat.le_ge_cases n (String.length s)) as [H | H].
  - rewrite CecLogFacts.substring_length by exact H. lia.
  - rewrite CecLogFacts.substring_all by exact H. lia.
Qed.

Lemma fill_length (c : ascii) (n : nat) (s : string) :
  String.length (fill c n s) = (n + String.length s)%nat.
Proof.
  induction n as [ | n IH ]; [ reflexivity | ].
  cbn [fill String.length]. rewrite IH. reflexivity.
Qed.

Lemma pad_left_length (c : ascii) (width : nat) (s : string) :
  String.length (pad_left c width s) = Nat.max width (String.length s).
Proof. unfold pad_left. rewrite fill_length. lia. Qed.

(** ** What reaches the message buffer *)

(** A disabled channel takes nothing. *)
Lemma submit_disabled (line : string) (st : log_state) :
  enabled st = false -> cec_log_submitf line st = st.
Proof.
  intros H. unfold cec_log_submitf, cec_log_vsubmitf. rewrite H. reflexivity.
Qed.

(** An enabled channel takes the line whole when it is shorter than the
    line buffer, and nothing otherwise. *)
Lemma submit_enabled (line : string) (st : log_state) :
  enabled st = true ->
  cec_log_submitf line st =
  if Nat.ltb (String.length line) LOG_LINE_LENGTH
  then {| enabled := enabled st; log_mb := log_mb st ++ [line] |}
  else st.
Proof.
  intros H. unfold cec_log_submitf, cec_log_vsubmitf, vsnprintf. rewrite H.
  unfold LOG_LINE_LENGTH. cbn [Nat.sub].
  destruct (Nat.ltb_spec (String.length line) 64) as [Hlt | Hge].
  - assert (E : (Z.of_nat (String.length line) <? Z.of_nat 64)%Z = true)
      by (apply Z.ltb_lt; lia).
    rewrite E. unfold xMessageBufferSend. rewrite ?H.
    rewrite CecLogFacts.substring_all by lia. reflexivity.
  - assert (E : (Z.of_nat (String.length line) <? Z.of_nat 64)%Z = false)
      by (apply Z.ltb_ge; lia).
    rewrite E. reflexivity.
Qed.

Lemma submit_fits (line : string) (st : log_state) :
  lines_fit st -> lines_fit (cec_log_submitf line st).
Proof.
  intros Hfit. destruct (enabled st) eqn:Hen.
  - rewrite submit_enabled by exact Hen.
    destruct (Nat.ltb_spec (String.length line) LOG_LINE_LENGTH)
      as [Hlt | Hge]; [ | exact Hfit ].
    unfold lines_fit. cbn [log_mb]. apply Forall_app. split.
    + exact Hfit.
    + constructor; [ exact Hlt | constructor ].
  - rewrite submit_disabled by exact Hen. exact Hfit.
Qed.

Section Closure.

Variable LOG_BR : string.
Variable names : Z -> cstring.

(** A property of the channel that every submission keeps. *)
Variable P : log_state -> Prop.
Hypothesis P_submit : forall line st, P st -> P (cec_log_submitf line st).

Lemma log_printf_keeps (now i d : Z) (send ack : bool) (body : string)
  (st : log_state) :
  P st -> P (log_printf LOG_BR now i d send ack body st).
Proof. intros H. unfold log_printf. apply P_submit. exact H. Qed.

Lemma dump_payload_keeps (pld : list Z) :
  forall (n i : nat) (st : log_state),
    P st -> P (dump_payload LOG_BR pld n i st).
Proof.
  induction n as [ | n IH ]; intros i st H; [ exact H | ].
  cbn [dump_payload]. apply IH. apply P_submit. exact H.
Qed.

(** [cec_log_frame] touches the channel through submissions only. *)
Lemma cec_log_frame_keeps (now : Z) (frame : cec_frame_t) (recv : bool)
  (st st' : log_state) :
  P st ->
  cec_log_frame LOG_BR names now frame recv st = Done st' -> P st'.
Proof.
  intros HP. unfold cec_log_frame. cbv zeta.
  destruct (1 <? len (message frame))%Z.
  - repeat lazymatch goal with
           | |- (if ?b then _ else _) = _ -> _ =>
               destruct b;
               [ repeat (match goal with
                         | |- context [fmt_s ?x] => destruct (fmt_s x)
                         | |- context [cec_feature_abort_reason ?x] =>
                             destruct (cec_feature_abort_reason x)
                         | |- (match ?x with _ => _ end) = _ -> _ =>
                             destruct x
                         end; cbn [obind]);
                 intros H; try discriminate H; injection H as <-;
                 auto using log_printf_keeps, dump_payload_keeps | ]
           end.
    repeat (match goal with
            | |- context [fmt_s ?x] => destruct (fmt_s x)
            | |- context [strlen ?x] => destruct (strlen x)
            | |- (match ?x with _ => _ end) = _ -> _ => destruct x
            end; cbn [obind]);
      intros H; try discriminate H; injection H as <-;
      auto using log_printf_keeps.
  - intros H. injection H as <-. apply log_printf_keeps. exact HP.
Qed.

End Closure.

(** X14. While logging is disabled, [cec_log_frame] puts nothing in the
    message buffer, whatever the frame: when it returns, the channel is as it
    was. *)
Theorem disabled_logging_enqueues_nothing
  (LOG_BR : string) (names : Z -> cstring) (now : Z) (frame : cec_frame_t)
  (recv : bool) (st st' : log_state) :
  enabled st = false ->
  cec_log_frame LOG_BR names now frame recv st = Done st' ->
  st' = st.
Proof.
  intros Hoff Hrun.
  apply (cec_log_frame_keeps LOG_BR names (fun x => x = st)
           (fun line x Hx => eq_trans (f_equal (cec_log_submitf line) Hx)
                               (submit_disabled line st Hoff))
           now frame recv st st' eq_refl Hrun).
Qed.

(** X15. Every line that [cec_log_submitf] and [cec_log_frame] leave in the
    message buffer is shorter than the 64-byte line buffer, so with its NUL
    it fits the buffer [cec_log_task] receives it in. *)
Theorem buffered_lines_fit
  (LOG_BR : string) (names : Z -> cstring) (now : Z) (frame : cec_frame_t)
  (recv : bool) (st st' : log_state) :
  lines_fit st ->
  (forall line, lines_fit (cec_log_submitf line st))
  /\ (cec_log_frame LOG_BR names now frame recv st = Done st' ->
      lines_fit st').
Proof.
  intros Hfit. split.
  - intros line. apply submit_fits. exact Hfit.
  - apply (cec_log_frame_keeps LOG_BR names lines_fit submit_fits).
    exact Hfit.
Qed.

(** ** Lines that are never logged *)

Section Threshold.

Variable LOG_BR : string.

(** The prefix [log_printf] formats has at least 21 characters: the brackets
    around ten columns of uptime, two addresses of two columns and the
    arrow. *)
Lemma prefix_length (now a b : Z) (arrow : string) :
  String.length arrow = 2%nat ->
  (21 <= String.length
           (fst (vsnprintf 64
                   ("[" ++ fmt_10llu now ++ "] " ++ fmt_02x a ++ " "
                    ++ arrow ++ " " ++ fmt_02x b))))%nat.
Proof.
  intros Harrow. unfold vsnprintf. cbn [fst Nat.sub].
  rewrite substring_prefix_length.
  rewrite !append_length, Harrow. unfold fmt_10llu, fmt_02x.
  rewrite !pad_left_length. cbn [String.length]. lia.
Qed.

(** X16. A line of [log_printf] whose decoded text and line break together
    have 41 characters or more is never logged: the prefix takes at least 23
    of the 63 characters a line may have, and the line is dropped whole. *)
Theorem long_text_is_never_logged
  (now initiator destination : Z) (send ack : bool) (text : string)
  (st : log_state) :
  (41 <= String.length text + String.length LOG_BR)%nat ->
  log_printf LOG_BR now initiator destination send ack text st = st.
Proof.
  intros Hlong. unfold log_printf. cbv zeta.
  destruct (enabled st) eqn:Hen; [ | apply submit_disabled; exact Hen ].
  rewrite submit_enabled by exact Hen.
  match goal with
  | |- (if Nat.ltb (String.length ?line) _ then _ else _) = _ =>
      assert (Hline : (LOG_LINE_LENGTH <= String.length line)%nat)
  end.
  { rewrite !append_length.
    pose proof (prefix_length now
                  (if send then initiator else destination)
                  (if send then destination else initiator)
                  (if send then if ack then "->" else "~>"
                   else if ack then "<-" else "<~")) as Hp.
    assert (Harrow : String.length
                       (if send then if ack then "->" else "~>"
                        else if ack then "<-" else "<~") = 2%nat)
      by (destruct send, ack; reflexivity).
    specialize (Hp Harrow).
    unfold vsnprintf in *. cbn [fst Nat.sub] in *.
    rewrite (substring_prefix_length 63 text).
    cbn [String.length]. unfold LOG_LINE_LENGTH. lia. }
  apply Nat.ltb_ge in Hline. rewrite Hline. reflexivity.
Qed.

(** X17. A REPORT_POWER_STATUS frame that reports a transition (operand
    [0x02] or [0x03]) is decoded but never logged, at any time, in either
    direction and with any line break: its text alone has 50 characters. *)
Theorem power_transition_is_never_logged
  (names : Z -> cstring) (now : Z) (frame : cec_frame_t) (recv : bool)
  (st : log_state) :
  (1 < len (message frame))%Z ->
  at_ (data (message frame)) 1 = CEC_ID_REPORT_POWER_STATUS ->
  at_ (data (message frame)) 2 = 0x02 \/ at_ (data (message frame)) 2 = 0x03 ->
  cec_log_frame LOG_BR names now frame recv st = Done st.
Proof.
  intros Hlen Hop Hoperand. unfold cec_log_frame. cbv zeta.
  apply Z.ltb_lt in Hlen. rewrite Hlen, Hop.
  cbn [Z.eqb Pos.eqb CEC_ID_REPORT_POWER_STATUS CEC_ID_FEATURE_ABORT
       CEC_ID_STANDBY CEC_ID_ROUTING_CHANGE CEC_ID_ACTIVE_SOURCE
       CEC_ID_REPORT_PHYSICAL_ADDRESS CEC_ID_USER_CONTROL_PRESSED
       CEC_ID_VENDOR_COMMAND_WITH_ID].
  change (fmt_s (cec_message CEC_ID_REPORT_POWER_STATUS))
    with (Done "Report Power Status").
  cbn [obind]. f_equal.
  destruct Hoperand as [-> | ->]; cbn [Z.eqb Pos.eqb];
    apply long_text_is_never_logged; cbn [append String.length]; lia.
Qed.

End Threshold.

(** ** When the logger faults *)

(** X18. [cec_log_frame] runs into undefined behaviour in two cases only, both
    on frames of more than one octet: the opcode has no entry in
    [cec_message], or the opcode is FEATURE_ABORT and the reason operand is
    beyond the six entries of [cec_feature_abort_reason].  On every other
    frame whose length is within the sixteen octets of the payload array it
    returns. *)
Theorem log_frame_faults
  (LOG_BR : string) (names : Z -> cstring) (now : Z) (frame : cec_frame_t)
  (recv : bool) (st : log_state) :
  (len (message frame) <= 16)%Z ->
  let cmd := at_ (data (message frame)) 1 in
  let reason := at_ (data (message frame)) 3 in
  (exists f, cec_log_frame LOG_BR names now frame recv st = Trap f)
  <-> (1 < len (message frame))%Z
      /\ (cec_message cmd = None
          \/ (cmd = CEC_ID_FEATURE_ABORT /\ ~ (0 <= reason <= 5)%Z)).
Proof.
  intros _. cbv zeta. unfold cec_log_frame. cbv zeta.
  destruct (1 <? len (message frame))%Z eqn:Hlen.
  2:{ split.
      - intros [f H]. discriminate H.
      - intros [H _]. apply Z.ltb_lt in H. congruence. }
  apply Z.ltb_lt in Hlen.
  destruct (at_ (data (message frame)) 1 =? CEC_ID_FEATURE_ABORT)%Z eqn:E0.
  { apply Z.eqb_eq in E0. rewrite E0.
    change (fmt_s (cec_message CEC_ID_FEATURE_ABORT))
      with (Done "Feature Abort"%string).
    cbn [obind]. unfold cec_feature_abort_reason, CEC_ABORT_UNDETERMINED.
    destruct ((0 <=? at_ (data (message frame)) 3)
              && (at_ (data (message frame)) 3 <=? 5))%Z eqn:Er.
    - apply andb_true_iff in Er. destruct Er as [Er1 Er2].
      apply Z.leb_le in Er1, Er2.
      assert (Hr : exists s,
                 designated cec_feature_abort_reason_entries
                   (at_ (data (message frame)) 3) = Some s).
      { assert (Hcases : at_ (data (message frame)) 3 = 0
                         \/ at_ (data (message frame)) 3 = 1
                         \/ at_ (data (message frame)) 3 = 2
                         \/ at_ (data (message frame)) 3 = 3
                         \/ at_ (data (message frame)) 3 = 4
                         \/ at_ (data (message frame)) 3 = 5) by lia.
        repeat (destruct Hcases as [-> | Hcases]; [ eexists; reflexivity | ]).
        rewrite Hcases. eexists; reflexivity. }
      destruct Hr as [s Hs]. cbn [obind]. rewrite Hs. cbn [fmt_s obind].
      split.
      + intros [f H]. discriminate H.
      + intros [_ [H | [_ H]]]; [ discriminate H | exfalso; apply H; lia ].
    - cbn [obind]. split.
      + intros _. split; [ exact Hlen | right ]. split; [ reflexivity | ].
        intros [H1 H2]. apply Z.leb_le in H1, H2. rewrite H1, H2 in Er.
        discriminate Er.
      + intros _. eexists; reflexivity. }
  assert (Hno : forall r : Prop,
             (at_ (data (message frame)) 1 = CEC_ID_FEATURE_ABORT /\ r)
             -> False).
  { intros r [H _]. apply Z.eqb_neq in E0. contradiction. }
  repeat lazymatch goal with
         | |- (exists f, (if ?b then _ else _) = Trap f) <-> _ =>
             destruct b eqn:?;
             [ rewrite ?orb_true_iff in *;
               repeat match goal with
                      | H : _ \/ _ |- _ => destruct H
                      end;
               match goal with
               | E : (_ =? _)%Z = true |- _ =>
                   apply Z.eqb_eq in E; rewrite ?E in *
               end;
               repeat match goal with
                      | |- context [cec_message ?c] =>
                          let v := eval vm_compute in (cec_message c) in
                          change (cec_message c) with v
                      end;
               cbn [fmt_s obind];
               try match goal with
                   | |- context [match names ?k with _ => _ end] =>
                       destruct (names k)
                   end;
               (split;
                [ intros [f Hf]; discriminate Hf
                | intros [_ [Hx | Hx]];
                  [ discriminate Hx | exfalso; exact (Hno _ Hx) ] ]) | ]
         end.
  destruct (cec_message (at_ (data (message frame)) 1)) as [s | ] eqn:Hm.
  - cbn [strlen fmt_s obind].
    destruct (Nat.ltb 0 (String.length s)); cbn [obind];
      (split;
       [ intros [f H]; discriminate H
       | intros [_ [H | H]];
         [ discriminate H | exfalso; exact (Hno _ H) ] ]).
  - cbn [strlen obind]. split.
    + intros _. split; [ exact Hlen | left; reflexivity ].
    + intros _. eexists; reflexivity.
Qed.

(** ** The consumer *)

Lemma submit_all_app (lines more : list string) (st : log_state) :
  submit_all (lines ++ more) st = submit_all more (submit_all lines st).
Proof. unfold submit_all. apply fold_left_app. Qed.

(** What a run of submissions leaves in the buffer of an enabled channel:
    the lines that are short enough, in the order of submission. *)
Lemma submit_all_enabled (lines : list string) :
  forall st,
    enabled st = true ->
    submit_all lines st =
    {| enabled := true; log_mb := log_mb st ++ filter short lines |}.
Proof.
  induction lines as [ | line rest IH ]; intros st Hen.
  - cbn. rewrite app_nil_r. destruct st; cbn in *. subst. reflexivity.
  - unfold submit_all. cbn [fold_left]. fold (submit_all rest).
    rewrite submit_enabled by exact Hen. fold (short line). cbn [filter].
    destruct (short line).
    + rewrite IH by (cbn [enabled]; exact Hen). cbn [log_mb].
      rewrite <- app_assoc. reflexivity.
    + apply IH. exact Hen.
Qed.

(** The consumer takes out what fits, oldest first, and then idles. *)
Lemma cec_log_task_drains (lines : list string) :
  forall (n : nat) (sink : list string) (on : bool),
    Forall (fun line => (String.length line < LOG_LINE_LENGTH)%nat) lines ->
    (List.length lines <= n)%nat ->
    cec_log_task n sink {| enabled := on; log_mb := lines |} =
    ((sink ++ lines)%list, {| enabled := on; log_mb := [] |}).
Proof.
  induction lines as [ | line rest IH ]; intros n sink on Hfit Hn.
  - rewrite app_nil_r. induction n as [ | n IHn ]; [ reflexivity | ].
    cbn [cec_log_task]. unfold cec_log_task_iteration, xMessageBufferReceive.
    cbn [log_mb Nat.ltb Nat.leb]. apply IHn. cbn [List.length]. lia.
  - destruct n as [ | n ]; [ cbn in Hn; lia | ].
    inversion Hfit as [ | x l Hline Hrest ]; subst.
    cbn [cec_log_task]. unfold cec_log_task_iteration, xMessageBufferReceive.
    cbn [log_mb enabled].
    assert (E : (String.length line + 1 <=? LOG_LINE_LENGTH)%nat = true)
      by (apply Nat.leb_le; lia).
    rewrite E.
    assert (E' : Nat.ltb 0 (String.length line + 1) = true)
      by (apply Nat.ltb_lt; lia).
    rewrite E'. rewrite IH by (try assumption; cbn [List.length] in Hn; lia).
    rewrite <- app_assoc. reflexivity.
Qed.

(** X19. On an enabled channel whose buffer is empty, a batch of fewer than
    [LOG_QUEUE_LENGTH] lines (for which the [LOG_MB_SIZE] bytes of the
    message buffer have room, so that no send times out) comes out of
    [cec_log_task] as follows: the lines shorter than 64 characters are
    handed to the sink unchanged and in the order of submission, the longer
    ones are never seen, and once the buffer is empty the sink is not called
    again. *)
Theorem submitted_lines_reach_the_sink (lines : list string) (n : nat) :
  (List.length lines < LOG_QUEUE_LENGTH)%nat ->
  (List.length (filter short lines) <= n)%nat ->
  cec_log_task n [] (submit_all lines (cec_log_enable cec_log_init)) =
  (filter short lines, cec_log_enable cec_log_init).
Proof.
  intros _ Hn. rewrite submit_all_enabled by reflexivity.
  cbn [log_mb cec_log_enable cec_log_init app].
  rewrite cec_log_task_drains.
  - reflexivity.
  - apply Forall_forall. intros line Hin. apply filter_In in Hin.
    destruct Hin as [_ Hs]. unfold short in Hs. apply Nat.ltb_lt in Hs.
    exact Hs.
  - exact Hn.
Qed.

Lemma log_frame_faults_witness :
  (exists f, cec_log_frame "" (fun _ => None) 0 frame_abort_reason_9 true
               log_on = Trap f)
  /\ ~ (exists f, cec_log_frame "" (fun _ => None) 0 frame_give_osd_name true
                    log_on = Trap f).
Proof.
  split.
  - apply (log_frame_faults "" (fun _ => None) 0 frame_abort_reason_9 true
             log_on).
    + vm_compute. discriminate.
    + split; [ reflexivity | right ]. split; [ reflexivity | ].
      vm_compute. intros [_ H]. apply H. reflexivity.
  - intros Hf.
    apply (log_frame_faults "" (fun _ => None) 0 frame_give_osd_name true
             log_on) in Hf.
    + destruct Hf as [_ [H | [H _]]]; discriminate H.
    + vm_compute. discriminate.
Defined.

Lemma disabled_logging_enqueues_nothing_witness :
  cec_log_frame "" (fun _ => None) 0 frame_give_osd_name true cec_log_init
  = Done cec_log_init
  /\ cec_log_init = cec_log_init.
Proof.
  split; [ reflexivity | ].
  apply (disabled_logging_enqueues_nothing "" (fun _ => None) 0
           frame_give_osd_name true cec_log_init cec_log_init);
    reflexivity.
Defined.

Lemma buffered_lines_fit_witness :
  lines_fit log_on
  /\ lines_fit (cec_log_submitf line64 log_on)
  /\ lines_fit {| enabled := true;
                  log_mb := ["[         0] 00 -> 04: [Give OSD Name]"] |}.
Proof.
  assert (H0 : lines_fit log_on) by constructor.
  destruct (buffered_lines_fit "" (fun _ => None) 0 frame_give_osd_name true
              log_on
              {| enabled := true;
                 log_mb := ["[         0] 00 -> 04: [Give OSD Name]"] |} H0)
    as [Hsubmit Hframe].
  split; [ exact H0 | split ].
  - apply Hsubmit.
  - apply Hframe. reflexivity.
Defined.

Lemma long_text_is_never_logged_witness :
  log_printf "" 0 0 4 true true
    "[Report Power Status][In transition Standby to On]" log_on = log_on.
Proof.
  apply (long_text_is_never_logged "" 0 0 4 true true
           "[Report Power Status][In transition Standby to On]" log_on).
  vm_compute. lia.
Defined.

Lemma power_transition_is_never_logged_witness :
  cec_log_frame "" (fun _ => None) 0 frame_power_transition true log_on
  = Done log_on.
Proof.
  apply (power_transition_is_never_logged "" (fun _ => None) 0
           frame_power_transition true log_on).
  - reflexivity.
  - reflexivity.
  - left. reflexivity.
Defined.

Lemma submitted_lines_reach_the_sink_witness :
  cec_log_task 3 []
    (submit_all ["first"; line64; "second"] (cec_log_enable cec_log_init))
  = (["first"; "second"], cec_log_enable cec_log_init).
Proof.
  apply (submitted_lines_reach_the_sink ["first"; line64; "second"] 3).
  - vm_compute. lia.
  - vm_compute. lia.
Defined.

End CecLogMore.

(** * Instances of the responder properties *)

Lemma unaddressed_frame_ignored_witness :
  exec (cec_task_iteration bus_silent [0x05; 0x46]) w_scenario = w_scenario.
Proof.
  apply (unaddressed_frame_ignored bus_silent w_scenario [0x05; 0x46]);
    discriminate.
Defined.

Lemma silently_accepted_witness :
  exec (cec_task_iteration bus_silent [0x04; 0x9E; 0x05]) w_scenario
  = w_scenario.
Proof.
  apply (silently_accepted bus_silent w_scenario [0x04; 0x9E; 0x05]).
  do 8 right. left. reflexivity.
Defined.

Lemma addresses_refreshed_by_two_opcodes_witness :
  let w' := exec (cec_task_iteration bus_crowded [0x0F; 0x86; 0x30; 0x00])
              w_scenario in
  config w' = config w_scenario
  /\ laddr w' = laddr w_scenario
  /\ paddr w' = paddr w_scenario
  /\ ddc_reads w' = ddc_reads w_scenario
  /\ Forall (fun e => (1 < List.length (snd e))%nat)
       (sent_since w_scenario w').
Proof.
  apply (addresses_refreshed_by_two_opcodes bus_crowded w_scenario
           [0x0F; 0x86; 0x30; 0x00]); discriminate.
Defined.

Lemma keys_come_from_user_control_witness :
  hid_queue (exec (cec_task_iteration bus_silent [0x04; 0x46]) w_keys)
  = hid_queue w_keys.
Proof.
  apply (keys_come_from_user_control bus_silent w_keys [0x04; 0x46]);
    discriminate.
Defined.

Lemma audio_mode_set_then_reported_witness :
  wire (exec (cec_task_loop bus_silent [[0x0F; 0x72; 0x01]; [0x04; 0x7D]])
          w_scenario)
  = wire w_scenario ++ [(4, [0x40; 0x7E; 0x01])].
Proof.
  apply (audio_mode_set_then_reported bus_silent w_scenario
           [0x0F; 0x72; 0x01] [0x04; 0x7D]);
    try reflexivity; try (simpl; lia).
  right. reflexivity.
Defined.

Lemma menu_request_reply_witness :
  let w' := exec (cec_task_iteration bus_silent [0x04; 0x8D; 0x00])
              w_scenario in
  menu_state w' = true
  /\ wire w' = wire w_scenario ++ [(4, [0x40; 0x8E; 0x00])].
Proof.
  destruct (menu_request_reply bus_silent w_scenario [0x04; 0x8D; 0x00])
    as (Hstate & _ & Hecho).
  - simpl; lia.
  - reflexivity.
  - reflexivity.
  - split; [ exact Hstate | ]. apply Hecho. left. reflexivity.
Defined.

Lemma active_source_then_request_witness :
  wire (exec (cec_task_loop bus_silent
                [[0x0F; 0x82; 0x30; 0x00]; [0x0F; 0x85]]) w_scenario)
  = wire w_scenario ++ [(4, [0x40; 0x04]); (4, [0x4F; 0x82; 0x30; 0x00])].
Proof.
  apply (active_source_then_request bus_silent w_scenario
           [0x0F; 0x82; 0x30; 0x00] [0x0F; 0x85]);
    try reflexivity; simpl; lia.
Defined.

Lemma key_press_then_release_witness :
  let w' := exec (cec_task_loop bus_silent [[0x04; 0x44; 0x41]; [0x04; 0x45]])
              w_keys in
  hid_queue w' = hid_queue w_keys ++ [0x80; HID_KEY_NONE]
  /\ blinks w' = blinks w_keys ++ [Blink_set_GREEN_ON; Blink_set_OFF]
  /\ wire w' = wire w_keys.
Proof.
  apply (key_press_then_release bus_silent w_keys
           [0x04; 0x44; 0x41] [0x04; 0x45]);
    try reflexivity; simpl; lia.
Defined.
